(** * langml.transformer.layers: feed-forward and sine/cosine position layers

    A shallow embedding of [langml/transformer/layers.py] and the
    properties its specification states about it.

    Conventions of the embedding
    - Python [int] is [Z]; [Optional[int]] is [option Z]; a Python float
      held in a configuration (the dropout rate) is a rational [Q], every
      finite float being one.
    - Tensor elements of the position layer and of [gelu] are real numbers:
      the host's floating-point arithmetic is idealised, rounding is not
      modelled.  The feed-forward layer is generic in its element type.
    - A tensor is its shape and its elements in row-major order.
    - A raised exception is the [Raise] case of [result]; the host
      framework (Keras) is an external collaborator: its base class, its
      registries and its stochastic pieces are the fields of the classes
      [Layer] and [Backend], its tensor operations are defined here from
      their documented behaviour (TensorFlow backend). *)

From Stdlib Require Import ZArith QArith Reals Lra Lia List String.
From stdpp Require Import gmap strings list fin_maps.

Set Default Proof Using "Type".
Set Warnings "-clear-no-such-hyp".

(** ** Exceptions and results *)

(** The two configuration errors of [SineCosinePositionEmbedding.__init__],
    with the data their messages print. *)
Inductive config_error :=
| OutputDimRequired (mode : string)
| OddOutputDim (output_dim : Z).

(** The exceptions of the program.  The first six are Python's own.
    [TensorError] is the error with which the host rejects the operands of a
    tensor operation (an axis the tensor does not have, dimensions that do
    not agree): TensorFlow raises [tf.errors.InvalidArgumentError] for it
    when it runs eagerly and [ValueError] when it builds a graph, and the
    model does not tell the two apart. *)
Inductive exn :=
| AttributeError (attr : string)
| AssertionError (mode : option string)
| NotImplementedError (why : config_error)
| IndexError
| TypeError
| ValueError
| TensorError.

Inductive result (A : Type) :=
| Ok (a : A)
| Raise (e : exn).
Arguments Ok {A} a.
Arguments Raise {A} e.

#[global] Instance result_ret : MRet result := fun _ a => Ok a.
#[global] Instance result_bind : MBind result := fun _ _ f r =>
  match r with
  | Ok a => f a
  | Raise e => Raise e
  end.
#[global] Instance result_fmap : FMap result := fun _ _ f r =>
  match r with
  | Ok a => Ok (f a)
  | Raise e => Raise e
  end.

Definition is_Ok {A} (r : result A) : Prop :=
  match r with Ok _ => True | Raise _ => False end.

Definition raises {A} (r : result A) : Prop :=
  match r with Ok _ => False | Raise _ => True end.

(** ** Tensors *)

Record tensor (T : Type) := Tensor { shape : list nat; data : list T }.
Arguments Tensor {T} shape data.
Arguments shape {T} t.
Arguments data {T} t.

(** Number of elements of a shape. *)
Definition numel (sh : list nat) : nat := foldr Nat.mul 1%nat sh.

(** Row-major multi-index of the flat index [n], and back. *)
Fixpoint unravel (sh : list nat) (n : nat) : list nat :=
  match sh with
  | [] => []
  | d :: rest => ((n / numel rest) mod d)%nat :: unravel rest n
  end.

Fixpoint ravel (sh idx : list nat) : nat :=
  match sh, idx with
  | _ :: rest, i :: idx' => (i * numel rest + ravel rest idx')%nat
  | _, _ => 0%nat
  end.

(** Python indexing [t[i]] of a tuple, negative indices counting from the
    end. *)
Definition py_index {A} (l : list A) (i : Z) : result A :=
  let j := (if i <? 0 then Z.of_nat (length l) + i else i)%Z in
  if (j <? 0)%Z then Raise IndexError
  else match nth_error l (Z.to_nat j) with
       | Some a => Ok a
       | None => Raise IndexError
       end.

(** [t[:-1]] *)
Definition py_init {A} (l : list A) : list A := take (length l - 1) l.

Definition tmap {A B} (f : A → B) (t : tensor A) : tensor B :=
  Tensor (shape t) (map f (data t)).

(** [K.shape(t)], a tensor of the host holding the dimensions of [t]. *)
Definition K_shape {T} (t : tensor T) : list Z := map Z.of_nat (shape t).

(** [s[i]] for a shape tensor [s]: the entry, a scalar tensor of the host.
    An index outside the shape is rejected by the host's slicing, not by
    Python's [IndexError] of tuples. *)
Definition K_getitem (s : list Z) (i : Z) : result Z :=
  match py_index s i with
  | Ok d => Ok d
  | Raise _ => Raise TensorError
  end.

(** [K.arange(start, stop)] *)
Definition K_arange (start stop : Z) : tensor Z :=
  let n := Z.to_nat (stop - start) in
  Tensor [n] (map (fun i => (start + Z.of_nat i)%Z) (seq 0 n)).

(** [K.expand_dims(t, axis)] *)
Definition K_expand_dims {T} (t : tensor T) (axis : Z) : result (tensor T) :=
  let r := Z.of_nat (length (shape t)) in
  let i := (if axis <? 0 then r + 1 + axis else axis)%Z in
  if ((i <? 0) || (r <? i))%Z then Raise TensorError
  else Ok (Tensor (take (Z.to_nat i) (shape t) ++ [1%nat]
                   ++ drop (Z.to_nat i) (shape t)) (data t)).

Section TensorOps.
Context {T : Type}.
Variable zero : T.
Variable add mul : T → T → T.

Definition at_ (l : list T) (n : nat) : T := nth n l zero.

(** [K.tile(t, reps)], one multiple per axis. *)
Definition K_tile (t : tensor T) (reps : list Z) : result (tensor T) :=
  if negb (length reps =? length (shape t))%nat then Raise TensorError
  else if negb (forallb (Z.leb 0) reps) then Raise TensorError
  else
    let out := zip_with Nat.mul (shape t) (map Z.to_nat reps) in
    Ok (Tensor out
          (map (fun n => at_ (data t)
                  (ravel (shape t)
                     (zip_with Nat.modulo (unravel out n) (shape t))))
               (seq 0 (numel out)))).

(** Sum of [f 0 .. f (k-1)]. *)
Definition sum_upto (k : nat) (f : nat → T) : T :=
  foldr (fun t acc => add (f t) acc) zero (seq 0 k).

(** [K.dot(x, y)]: the last axis of [x] is contracted with the
    last-but-one axis of [y]; the result has shape
    [x.shape[:-1] + y.shape[:-2] + y.shape[-1:]].  Two operands of rank at
    most 2 go to the host's matrix product, which wants matrices. *)
Definition K_dot (x y : tensor T) : result (tensor T) :=
  let rx := length (shape x) in
  let ry := length (shape y) in
  if (ry <? 2)%nat || (rx <? 1)%nat then Raise TensorError
  else if (rx <? 2)%nat && (ry =? 2)%nat then Raise TensorError
  else
    let k := List.last (shape x) 0%nat in
    let xpre := py_init (shape x) in
    let ypre := take (ry - 2) (shape y) in
    let ky := nth (ry - 2) (shape y) 0%nat in
    let n := List.last (shape y) 0%nat in
    if negb (k =? ky)%nat then Raise TensorError
    else
      let P := numel ypre in
      Ok (Tensor (xpre ++ ypre ++ [n])
            (map (fun m =>
                    let r := (m / (P * n))%nat in
                    let p := ((m / n) mod P)%nat in
                    let j := (m mod n)%nat in
                    sum_upto k (fun t =>
                      mul (at_ (data x) (r * k + t))
                          (at_ (data y) (p * (k * n) + t * n + j))))
                 (seq 0 (numel xpre * P * n)))).

(** [K.bias_add(x, b)] with a vector [b] on the last axis. *)
Definition K_bias_add (x b : tensor T) : result (tensor T) :=
  match shape b with
  | [n] =>
      if (length (shape x) <? 2)%nat then Raise TensorError
      else if negb (List.last (shape x) 0%nat =? n)%nat then Raise TensorError
      else Ok (Tensor (shape x)
                 (map (fun m => add (at_ (data x) m) (at_ (data b) (m mod n)))
                    (seq 0 (numel (shape x)))))
  | _ => Raise TensorError
  end.

(** [K.stack([a, b], axis=-1)] *)
Definition K_stack2 (a b : tensor T) : result (tensor T) :=
  if negb (bool_decide (shape a = shape b)) then Raise TensorError
  else Ok (Tensor (shape a ++ [2%nat])
             (map (fun m => if Nat.even m then at_ (data a) (m / 2)
                            else at_ (data b) (m / 2))
                (seq 0 (numel (shape a) * 2)))).

(** [K.reshape(t, target)] where [target] may hold one [-1]. *)
Definition K_reshape (t : tensor T) (target : list Z) : result (tensor T) :=
  let total := numel (shape t) in
  let holes := length (filter (fun d => d = (-1)%Z) target) in
  if negb (forallb (Z.leb (-1)) target) then Raise TensorError
  else
    let known := numel (map Z.to_nat (filter (fun d => d ≠ (-1)%Z) target)) in
    match holes with
    | O => if (known =? total)%nat
           then Ok (Tensor (map Z.to_nat target) (data t))
           else Raise TensorError
    | S O =>
        if (known =? 0)%nat then Raise TensorError
        else if negb (total mod known =? 0)%nat then Raise TensorError
        else Ok (Tensor (map (fun d => if (d =? -1)%Z then (total / known)%nat
                                       else Z.to_nat d) target) (data t))
    | _ => Raise TensorError
    end.

(** Broadcast of two shapes, aligned on their last axes. *)
Fixpoint broadcast_rev (a b : list nat) : option (list nat) :=
  match a, b with
  | [], _ => Some b
  | _, [] => Some a
  | x :: a', y :: b' =>
      r ← broadcast_rev a' b';
      if (x =? y)%nat then Some (x :: r)
      else if (x =? 1)%nat then Some (y :: r)
      else if (y =? 1)%nat then Some (x :: r)
      else None
  end.

Definition broadcast (a b : list nat) : option (list nat) :=
  (fun r => rev r) <$> broadcast_rev (rev a) (rev b).

(** Flat index in a tensor of shape [sh] of the element broadcast to the
    position [n] of the shape [out]. *)
Definition source_index (out sh : list nat) (n : nat) : nat :=
  ravel sh (zip_with Nat.modulo
              (drop (length out - length sh) (unravel out n)) sh).

(** [x + y] on tensors ([output += inputs]). *)
Definition K_add (x y : tensor T) : result (tensor T) :=
  match broadcast (shape x) (shape y) with
  | None => Raise TensorError
  | Some out =>
      Ok (Tensor out
            (map (fun n => add (at_ (data x) (source_index out (shape x) n))
                               (at_ (data y) (source_index out (shape y) n)))
               (seq 0 (numel out))))
  end.

(** [K.concatenate([x, y], axis=-1)] *)
Definition K_concatenate (x y : tensor T) : result (tensor T) :=
  match shape x, shape y with
  | _ :: _, _ :: _ =>
      let a := List.last (shape x) 0%nat in
      let b := List.last (shape y) 0%nat in
      let pre := py_init (shape x) in
      if negb (bool_decide (pre = py_init (shape y))) then Raise TensorError
      else Ok (Tensor (pre ++ [(a + b)%nat])
                 (map (fun m =>
                         let r := (m / (a + b))%nat in
                         let j := (m mod (a + b))%nat in
                         if (j <? a)%nat then at_ (data x) (r * a + j)
                         else at_ (data y) (r * b + (j - a)))
                    (seq 0 (numel pre * (a + b)))))
  | _, _ => Raise TensorError
  end.
End TensorOps.

(** ** Python values and objects *)

(** The values that configurations and instance attributes hold.  [VBound]
    stands for what an attribute lookup finds on the class rather than on
    the instance (a method). *)
#[warnings="-register-all"] Inductive value :=
| VNone
| VBool (b : bool)
| VInt (n : Z)
| VFloat (q : Q)
| VStr (s : string)
| VList (items : list value)
| VBound (name : string).

(** [v == s] for a string literal [s]. *)
Definition str_is (v : value) (s : string) : bool :=
  match v with
  | VStr s' => bool_decide (s' = s)
  | _ => false
  end.

Definition of_opt_str (o : option string) : value :=
  match o with Some s => VStr s | None => VNone end.

Definition of_opt_int (o : option Z) : value :=
  match o with Some n => VInt n | None => VNone end.

Definition as_int (v : value) : result Z :=
  match v with VInt n => Ok n | _ => Raise TypeError end.

Definition as_opt_int (v : value) : result (option Z) :=
  match v with
  | VInt n => Ok (Some n)
  | VNone => Ok None
  | _ => Raise TypeError
  end.

Definition as_opt_str (v : value) : result (option string) :=
  match v with
  | VStr s => Ok (Some s)
  | VNone => Ok None
  | _ => Raise TypeError
  end.

(** The host's base class [keras.layers.Layer], as far as the two layers
    use it: its initialiser and its [build], which act on the instance's
    attributes, its [get_config], and the names an instance inherits from
    the class. *)
Class Layer := {
  Layer_init : gmap string value → gmap string value → result (gmap string value);
  Layer_build : list (option Z) → gmap string value → gmap string value;
  Layer_get_config : gmap string value → gmap string value;
  Layer_names : gset string;
}.

(** The host initialiser leaves the attributes [names] as it finds them. *)
Definition Layer_respects {host : Layer} (names : list string) : Prop :=
  ∀ kwargs self self' k,
    k ∈ names → Layer_init kwargs self = Ok self' → self' !! k = self !! k.


(** [dict(base_config, **config)]: the entries of [config] win. *)
Definition dict_update (base_config config : gmap string value)
  : gmap string value := config ∪ base_config.

(** ** gelu *)

Definition K_tanh : R → R := tanh.
Definition math_sqrt : R → R := sqrt.
Definition math_pi : R := PI.

Definition gelu (x : R) : R :=
  (0.5 * x * (1.0 + K_tanh (math_sqrt (2.0 / math_pi)
                            * (x + 0.044715 * x ^ 3))))%R.

(** A tensor of either element type of the position layer, and the host's
    cast to its float type. *)
Inductive anytensor :=
| TInt (t : tensor Z)
| TFloat (t : tensor R).

Definition K_cast_floatx (t : anytensor) : tensor R :=
  match t with
  | TInt t => tmap IZR t
  | TFloat t => t
  end.

(** ** SineCosinePositionEmbedding *)

Module SineCosinePositionEmbedding.
Section Def.
Context {host : Layer}.

(** What the class body itself defines. *)
Definition class_names : list string :=
  ["__init__"; "get_config"; "get_custom_objects"; "compute_mask";
   "compute_output_shape"; "call"].

(** [self.name]: the instance's attributes first, then the class and
    its base class. *)
Definition getattr (self : gmap string value) (name : string) : result value :=
  match self !! name with
  | Some v => Ok v
  | None =>
      if bool_decide (name ∈ class_names) || bool_decide (name ∈ Layer_names)
      then Ok (VBound name)
      else Raise (AttributeError name)
  end.

(** [mode in names] *)
Definition mode_in (mode : option string) (names : list string) : bool :=
  match mode with
  | Some m => bool_decide (m ∈ names)
  | None => false
  end.

(** Lines 175-179: the checks on [output_dim]. *)
Definition check_output_dim (mode : option string) (output_dim : option Z)
  : result () :=
  if mode_in mode ["expand"; "concat"] then
    match output_dim with
    | None => Raise (NotImplementedError (OutputDimRequired (default "" mode)))
    | Some d =>
        if negb (d mod 2 =? 0)%Z
        then Raise (NotImplementedError (OddOutputDim d))
        else Ok ()
    end
  else Ok ().

(** [__init__]: the attributes of [self] when it leaves, and how it
    leaves.  The [assert] of line 174 is executed, as the interpreter does
    unless told to optimise. *)
Definition __init__ (self : gmap string value) (mode : option string)
    (output_dim : option Z) (kwargs : gmap string value)
  : gmap string value * result () :=
  let self := <["supports_masking" := VBool true]> self in
  if negb (mode_in mode ["expand"; "add"; "concat"])
  then (self, Raise (AssertionError mode))
  else
    match check_output_dim mode output_dim with
    | Raise e => (self, Raise e)
    | Ok _ =>
        let self := <["mode" := of_opt_str mode]> self in
        let self := <["output_dim" := of_opt_int output_dim]> self in
        match Layer_init kwargs self with
        | Ok self' => (self', Ok ())
        | Raise e => (self, Raise e)
        end
    end.

(** The constructor call: a fresh instance is initialised, and handed
    out only if [__init__] returns. *)
Definition new (mode : option string) (output_dim : option Z)
    (kwargs : gmap string value) : result (gmap string value) :=
  let '(self, r) := __init__ ∅ mode output_dim kwargs in
  _ ← r; Ok self.

(** The three conditions under which the specification has construction
    fail. *)
Definition rejected (mode : option string) (output_dim : option Z) : Prop :=
  mode ∉ [Some "expand"; Some "add"; Some "concat"]
  ∨ (mode ∈ [Some "expand"; Some "concat"] ∧ output_dim = None)
  ∨ (mode ∈ [Some "expand"; Some "concat"]
     ∧ ∃ d, output_dim = Some d ∧ Z.odd d = true).

(** The attributes of a fresh instance when [__init__] reaches the
    initialiser of the base class. *)
Definition initial_attrs (mode : option string) (output_dim : option Z)
  : gmap string value :=
  <["output_dim" := of_opt_int output_dim]>
    (<["mode" := of_opt_str mode]> (<["supports_masking" := VBool true]> ∅)).

Definition get_config (self : gmap string value) : result (gmap string value) :=
  mode ← getattr self "mode";
  output_dim ← getattr self "output_dim";
  let config := <["mode" := mode]> (<["output_dim" := output_dim]> ∅) in
  let base_config := Layer_get_config self in
  Ok (dict_update base_config config).

(** The host's [from_config], which calls the class on the entries of
    [config] as keyword arguments: those named after parameters of
    [__init__] are bound to them, with the defaults [mode='add'] and
    [output_dim=None], the others are its [kwargs]. *)
Definition from_config (config : gmap string value)
  : result (gmap string value) :=
  mode ← as_opt_str (default (VStr "add") (config !! "mode"));
  output_dim ← as_opt_int (default VNone (config !! "output_dim"));
  new mode output_dim (delete "mode" (delete "output_dim" config)).

Definition compute_mask (self : gmap string value) (inputs : tensor R)
    (mask : option (tensor R)) : option (tensor R) := mask.

Definition compute_output_shape (self : gmap string value)
    (input_shape : list (option Z)) : result (list (option Z)) :=
  mode ← getattr self "mode";
  if str_is mode "expand" then
    output_dim ← getattr self "output_dim" ≫= as_opt_int;
    Ok (input_shape ++ [output_dim])
  else if str_is mode "concat" then
    last ← py_index input_shape (-1);
    output_dim ← getattr self "output_dim" ≫= as_opt_int;
    match last, output_dim with
    | Some a, Some b => Ok (py_init input_shape ++ [Some (a + b)%Z])
    | _, _ => Raise TypeError
    end
  else Ok input_shape.

(** Lines 211-214, from the value [model] that [self.model] gave: the
    positions to encode. *)
Definition positions (model : value) (batch_size seq_len : Z)
    (inputs : tensor R) : result anytensor :=
  if str_is model "add" || str_is model "concat" then
    row ← K_expand_dims (K_arange 0 seq_len) 0;
    pos_input ← K_tile 0%Z row [batch_size; 1%Z];
    Ok (TInt pos_input)
  else Ok (TFloat inputs).

(** [1.0 / K.pow(10000.0, K.cast(idx, floatx) / K.cast(output_dim, floatx))]
    for a tensor [idx] of integers. *)
Definition frequencies (idx : tensor Z) (output_dim : Z) : tensor R :=
  tmap (fun e => 1.0 / Rpower 10000.0 e)%R
    (tmap (fun i => IZR i / IZR output_dim)%R idx).

(** Lines 215-236: the encoding of the positions [pos_input]. *)
Definition encode (pos_input : anytensor) (seq_len : Z) (output_dim : value)
  : result (tensor R) :=
  let pos_input := K_cast_floatx pos_input in
  output_dim ← as_int output_dim;
  let evens := tmap (fun i => i * 2)%Z (K_arange 0 (output_dim / 2)) in
  let odds := tmap (fun i => i * 2 + 1)%Z (K_arange 0 (output_dim / 2)) in
  pos ← K_expand_dims pos_input (-1);
  freq ← K_expand_dims (frequencies evens output_dim) 0;
  angle ← K_dot 0%R Rplus Rmult pos freq;
  let sim_embed := tmap sin angle in
  pos ← K_expand_dims pos_input (-1);
  freq ← K_expand_dims
            (frequencies (tmap (fun i => i - 1)%Z odds) output_dim) 0;
  angle ← K_dot 0%R Rplus Rmult pos freq;
  let cos_embed := tmap cos angle in
  embed ← K_stack2 0%R sim_embed cos_embed;
  K_reshape embed [(-1)%Z; seq_len; output_dim].

(** Lines 237-241: how the encoding meets the input. *)
Definition combine (self : gmap string value) (inputs output : tensor R)
  : result (tensor R) :=
  mode ← getattr self "mode";
  if str_is mode "add" then K_add 0%R Rplus output inputs
  else if str_is mode "concat" then K_concatenate 0%R inputs output
  else Ok output.

Definition call (self : gmap string value) (inputs : tensor R)
    (mask : option (tensor R)) : result (tensor R) :=
  let input_shape := K_shape inputs in
  batch_size ← K_getitem input_shape 0;
  seq_len ← K_getitem input_shape 1;
  mode ← getattr self "mode";
  output_dim ← (if str_is mode "add" then VInt <$> K_getitem input_shape 2
                else getattr self "output_dim");
  model ← getattr self "model";
  pos_input ← positions model batch_size seq_len inputs;
  output ← encode pos_input seq_len output_dim;
  combine self inputs output.
End Def.
End SineCosinePositionEmbedding.

(** ** FeedForward *)

(** What the feed-forward layer takes from the host besides [Layer]: the
    arithmetic of the tensor elements, the four registries that resolve and
    serialise activations, initialisers, regularisers and constraints, the
    values an initialiser gives a fresh weight, and the [Dropout] layer.
    An activation and a dropout return the elements of a tensor of the
    shape they are given.  [Phase] is what the host's dropout consults when
    it runs: the ambient learning phase and the random state. *)
Class Backend (T : Type) := {
  zero : T;
  add : T → T → T;
  mul : T → T → T;
  Activation : Type;
  Initializer : Type;
  Regularizer : Type;
  Constraint : Type;
  Phase : Type;
  activations_get : value → result (option Activation);
  activations_serialize : option Activation → value;
  initializers_get : value → result Initializer;
  initializers_serialize : Initializer → value;
  regularizers_get : value → result Regularizer;
  regularizers_serialize : Regularizer → value;
  constraints_get : value → result Constraint;
  constraints_serialize : Constraint → value;
  apply_activation : Activation → tensor T → list T;
  initial_value : Initializer → string → list nat → list T;
  Dropout_call : Q → Phase → tensor T → list T;
}.


Module FeedForward.
Section Def.
Context {T : Type} {host : Layer} {backend : Backend T}.

(** A weight as [add_weight] registers it. *)
Record weight := {
  w_name : string;
  w_value : tensor T;
  w_regularizer : Regularizer;
  w_constraint : Constraint;
}.

(** An instance: the attributes that [Layer] manages, those that
    [__init__] assigns, and those that [build] assigns, absent until then. *)
Record instance := {
  base : gmap string value;
  supports_masking : bool;
  units : Z;
  activation : option Activation;
  kernel_initializer : Initializer;
  kernel_regularizer : Regularizer;
  kernel_constraint : Constraint;
  bias_initializer : Initializer;
  bias_regularizer : Regularizer;
  bias_constraint : Constraint;
  use_bias : bool;
  dropout_rate : Q;
  W1 : option weight;
  W2 : option weight;
  b1 : option weight;
  b2 : option weight;
  dropout_layer : option Q;
}.

(** Reading an attribute that was never assigned. *)
Definition attr {A} (name : string) (field : option A) : result A :=
  match field with
  | Some a => Ok a
  | None => Raise (AttributeError name)
  end.

(** [self.name], which [Layer] assigns. *)
Definition name (self : instance) : result string :=
  match base self !! "name" with
  | Some (VStr s) => Ok s
  | Some _ => Raise TypeError
  | None => Raise (AttributeError "name")
  end.

(** [rate > 0.0] *)
Definition positive (rate : Q) : bool := negb (Qle_bool rate 0).

Definition __init__ (units : Z)
    (activation kernel_initializer kernel_regularizer kernel_constraint
     bias_initializer bias_regularizer bias_constraint : value)
    (use_bias : bool) (dropout_rate : Q) (kwargs : gmap string value)
  : result instance :=
  base ← Layer_init kwargs ∅;
  activation ← activations_get activation;
  kernel_initializer ← initializers_get kernel_initializer;
  kernel_regularizer ← regularizers_get kernel_regularizer;
  kernel_constraint ← constraints_get kernel_constraint;
  bias_initializer ← initializers_get bias_initializer;
  bias_regularizer ← regularizers_get bias_regularizer;
  bias_constraint ← constraints_get bias_constraint;
  Ok {| base := base; supports_masking := true; units := units;
        activation := activation;
        kernel_initializer := kernel_initializer;
        kernel_regularizer := kernel_regularizer;
        kernel_constraint := kernel_constraint;
        bias_initializer := bias_initializer;
        bias_regularizer := bias_regularizer;
        bias_constraint := bias_constraint;
        use_bias := use_bias; dropout_rate := dropout_rate;
        W1 := None; W2 := None; b1 := None; b2 := None;
        dropout_layer := None |}.

Definition get_config (self : instance) : gmap string value :=
  let config : gmap string value :=
    <["units" := VInt (units self)]>
    (<["activation" := activations_serialize (activation self)]>
    (<["kernel_initializer" := initializers_serialize (kernel_initializer self)]>
    (<["kernel_regularizer" := regularizers_serialize (kernel_regularizer self)]>
    (<["kernel_constraint" := constraints_serialize (kernel_constraint self)]>
    (<["bias_initializer" := initializers_serialize (bias_initializer self)]>
    (<["bias_regularizer" := regularizers_serialize (bias_regularizer self)]>
    (<["bias_constraint" := constraints_serialize (bias_constraint self)]>
    (<["use_bias" := VBool (use_bias self)]>
    (<["dropout_rate" := VFloat (dropout_rate self)]> ∅))))))))) in
  let base_config := Layer_get_config (base self) in
  dict_update base_config config.

(** The parameters of [__init__], in order. *)
Definition parameters : list string :=
  ["units"; "activation"; "kernel_initializer"; "kernel_regularizer";
   "kernel_constraint"; "bias_initializer"; "bias_regularizer";
   "bias_constraint"; "use_bias"; "dropout_rate"].

(** The host's [from_config], which calls the class on the entries of
    [config] as keyword arguments: [units] has no default, the other
    parameters have those of [__init__]. *)
Definition from_config (config : gmap string value) : result instance :=
  units ← match config !! "units" with
          | Some v => as_int v
          | None => Raise TypeError
          end;
  use_bias ← match default (VBool true) (config !! "use_bias") with
             | VBool b => Ok b
             | _ => Raise TypeError
             end;
  dropout_rate ← match default (VFloat 0) (config !! "dropout_rate") with
                 | VFloat q => Ok q
                 | _ => Raise TypeError
                 end;
  __init__ units
    (default (VStr "relu") (config !! "activation"))
    (default (VStr "glorot_normal") (config !! "kernel_initializer"))
    (default VNone (config !! "kernel_regularizer"))
    (default VNone (config !! "kernel_constraint"))
    (default (VStr "zeros") (config !! "bias_initializer"))
    (default VNone (config !! "bias_regularizer"))
    (default VNone (config !! "bias_constraint"))
    use_bias dropout_rate
    (foldr delete config parameters).

(** The host's [add_weight]: a variable of the given shape, filled by
    the initialiser. *)
Definition add_weight (shape : list Z) (initializer : Initializer)
    (regularizer : Regularizer) (constraint : Constraint) (name : string)
  : result weight :=
  if negb (forallb (Z.leb 0) shape) then Raise ValueError
  else
    let sh := map Z.to_nat shape in
    Ok {| w_name := name;
          w_value := Tensor sh (initial_value initializer name sh);
          w_regularizer := regularizer;
          w_constraint := constraint |}.

(** [int(d)] for an entry [d] of a static shape. *)
Definition py_int (d : option Z) : result Z :=
  match d with
  | Some n => Ok n
  | None => Raise TypeError
  end.

(** [build]: the instance with its weights.  An exception leaves
    through [Raise]; the instance it leaves behind is not modelled. *)
Definition build (self : instance) (input_shape : list (option Z))
  : result instance :=
  feature_dim ← py_index input_shape (-1) ≫= py_int;
  name ← name self;
  w1 ← add_weight [feature_dim; units self] (kernel_initializer self)
          (kernel_regularizer self) (kernel_constraint self) (name ++ "_W1");
  w2 ← add_weight [units self; feature_dim] (kernel_initializer self)
          (kernel_regularizer self) (kernel_constraint self) (name ++ "_W2");
  bias ← (if use_bias self then
            v1 ← add_weight [units self] (bias_initializer self)
                   (bias_regularizer self) (bias_constraint self)
                   (name ++ "_b1");
            v2 ← add_weight [feature_dim] (bias_initializer self)
                   (bias_regularizer self) (bias_constraint self)
                   (name ++ "_b2");
            Ok (Some v1, Some v2)
          else Ok (b1 self, b2 self));
  let dropout_layer :=
    if positive (dropout_rate self) then Some (dropout_rate self)
    else dropout_layer self in
  Ok {| base := Layer_build input_shape (base self);
        supports_masking := supports_masking self; units := units self;
        activation := activation self;
        kernel_initializer := kernel_initializer self;
        kernel_regularizer := kernel_regularizer self;
        kernel_constraint := kernel_constraint self;
        bias_initializer := bias_initializer self;
        bias_regularizer := bias_regularizer self;
        bias_constraint := bias_constraint self;
        use_bias := use_bias self; dropout_rate := dropout_rate self;
        W1 := Some w1; W2 := Some w2; b1 := bias.1; b2 := bias.2;
        dropout_layer := dropout_layer |}.

(** [self.activation(hidden)] and [self.dropout_layer(hidden)] *)
Definition activate (a : Activation) (t : tensor T) : tensor T :=
  Tensor (shape t) (apply_activation a t).

Definition dropout (rate : Q) (phase : Phase) (t : tensor T) : tensor T :=
  Tensor (shape t) (Dropout_call rate phase t).

(** [call]; [phase] is the state of the host in which the call runs. *)
Definition call (self : instance) (inputs : tensor T)
    (mask : option (tensor T)) (training : option bool) (phase : Phase)
  : result (tensor T) :=
  w1 ← attr "W1" (W1 self);
  hidden ← K_dot zero add mul inputs (w_value w1);
  hidden ← (if use_bias self then
              v1 ← attr "b1" (b1 self);
              K_bias_add zero add hidden (w_value v1)
            else Ok hidden);
  hidden ← (match activation self with
            | Some a => Ok (activate a hidden)
            | None => Ok hidden
            end);
  hidden ← (if positive (dropout_rate self) then
              layer ← attr "dropout_layer" (dropout_layer self);
              Ok (dropout layer phase hidden)
            else Ok hidden);
  w2 ← attr "W2" (W2 self);
  output ← K_dot zero add mul hidden (w_value w2);
  output ← (if use_bias self then
              v2 ← attr "b2" (b2 self);
              K_bias_add zero add output (w_value v2)
            else Ok output);
  Ok output.

Definition compute_mask (self : instance) (inputs : tensor T)
    (mask : option (tensor T)) : option (tensor T) := mask.

Definition compute_output_shape (self : instance)
    (input_shape : list (option Z)) : list (option Z) := input_shape.
(** The bound state: the attributes that [call] reads are there. *)
Definition bound (self : instance) : Prop :=
  is_Some (W1 self) ∧ is_Some (W2 self)
  ∧ (use_bias self = true → is_Some (b1 self) ∧ is_Some (b2 self))
  ∧ (positive (dropout_rate self) = true →
     dropout_layer self = Some (dropout_rate self)).

(** The configuration of an instance: what [__init__] stores of its
    arguments. *)
Definition configuration (self : instance) :=
  (units self, activation self, kernel_initializer self,
   kernel_regularizer self, kernel_constraint self, bias_initializer self,
   bias_regularizer self, bias_constraint self, use_bias self,
   dropout_rate self).

(** The steps of [call], in the order of its text, and the condition under
    which each is taken. *)
Inductive step :=
| LinearW1 | BiasB1 | Nonlinearity | DropoutStep | LinearW2 | BiasB2.

Definition pipeline : list step :=
  [LinearW1; BiasB1; Nonlinearity; DropoutStep; LinearW2; BiasB2].

Definition enabled (self : instance) (s : step) : bool :=
  match s with
  | LinearW1 | LinearW2 => true
  | BiasB1 | BiasB2 => use_bias self
  | Nonlinearity =>
      match activation self with Some _ => true | None => false end
  | DropoutStep => positive (dropout_rate self)
  end.

Definition steps (self : instance) : list step :=
  List.filter (enabled self) pipeline.

Definition run_step (self : instance) (phase : Phase) (s : step)
    (t : tensor T) : result (tensor T) :=
  match s with
  | LinearW1 => w ← attr "W1" (W1 self); K_dot zero add mul t (w_value w)
  | BiasB1 => v ← attr "b1" (b1 self); K_bias_add zero add t (w_value v)
  | Nonlinearity =>
      match activation self with
      | Some a => Ok (activate a t)
      | None => Ok t
      end
  | DropoutStep =>
      layer ← attr "dropout_layer" (dropout_layer self);
      Ok (dropout layer phase t)
  | LinearW2 => w ← attr "W2" (W2 self); K_dot zero add mul t (w_value w)
  | BiasB2 => v ← attr "b2" (b2 self); K_bias_add zero add t (w_value v)
  end.

Definition run_steps (self : instance) (phase : Phase) (l : list step)
    (inputs : tensor T) : result (tensor T) :=
  foldl (fun acc s => acc ≫= run_step self phase s) (Ok inputs) l.

(** The contract in the specification's words:
    [output = Dense2(Dropout(Activation(Dense1(input))))], over the
    parameters [w1], [w2] and the bias vectors, if any. *)
Definition Dense (w : tensor T) (b : option (tensor T)) (x : tensor T)
  : result (tensor T) :=
  y ← K_dot zero add mul x w;
  match b with
  | Some b => K_bias_add zero add y b
  | None => Ok y
  end.

Definition Activation_of (a : option Activation) (x : tensor T) : tensor T :=
  match a with
  | Some a => activate a x
  | None => x
  end.

(** The activation step acts entry by entry, as [f]: so do [relu], [linear]
    (to which the host resolves [None]), [tanh], [sigmoid] and [gelu]. *)
Definition elementwise (a : option Activation) (f : T → T) : Prop :=
  ∀ x, data (Activation_of a x) = map f (data x).

Definition Dropout_of (rate : Q) (phase : Phase) (x : tensor T) : tensor T :=
  if positive rate then dropout rate phase x else x.

Definition spec_forward (a : option Activation) (rate : Q)
    (w1 w2 : tensor T) (v1 v2 : option (tensor T)) (phase : Phase)
    (input : tensor T) : result (tensor T) :=
  h ← Dense w1 v1 input;
  Dense w2 v2 (Dropout_of rate phase (Activation_of a h)).

(** [v] with entry [j] of the bias vector added, if there is one. *)
Definition plus_bias (b : option (tensor T)) (j : nat) (v : T) : T :=
  match b with
  | Some b => add v (at_ zero (data b) j)
  | None => v
  end.

(** The bias vector that a configuration with [use_bias] uses. *)
Definition bias_of (self : instance) (field : option weight)
  : option (tensor T) :=
  if use_bias self then w_value <$> field else None.
End Def.
End FeedForward.

(** ** A small host

    A base class and a backend on integer tensors with which the layers
    can be run: [Layer] keeps a name and a trainable flag and rejects other
    keyword arguments; the backend knows the activation [relu], takes every
    other name for the identity and resolves [None] to [linear] as Keras
    does, fills weights with zeros or with ones, and drops every other
    element in the training phase. *)
Module Host.
Definition Layer_keywords : gset string := {["name"; "trainable"]}.

Definition layer : Layer := {|
  Layer_init kwargs self :=
    if bool_decide (dom kwargs ⊆ Layer_keywords)
    then Ok (<["name" := default (VStr "layer") (kwargs !! "name")]>
             (<["trainable" := default (VBool true) (kwargs !! "trainable")]>
              self))
    else Raise TypeError;
  Layer_build input_shape self := <["built" := VBool true]> self;
  Layer_get_config self :=
    <["name" := default VNone (self !! "name")]>
    (<["trainable" := default VNone (self !! "trainable")]> ∅);
  Layer_names :=
    {["name"; "trainable"; "built"; "build"; "add_weight"; "from_config"]};
|}.

Definition backend : Backend Z := {|
  zero := 0%Z;
  add := Z.add;
  mul := Z.mul;
  Activation := string;
  Initializer := value;
  Regularizer := value;
  Constraint := value;
  Phase := bool;
  activations_get v :=
    match v with
    | VStr s => Ok (Some s)
    | VNone => Ok (Some "linear")
    | _ => Raise ValueError
    end;
  activations_serialize a := of_opt_str a;
  initializers_get v := Ok v;
  initializers_serialize i := i;
  regularizers_get v := Ok v;
  regularizers_serialize r := r;
  constraints_get v := Ok v;
  constraints_serialize c := c;
  apply_activation a t :=
    if bool_decide (a = "relu") then map (Z.max 0) (data t) else data t;
  initial_value i name sh :=
    match i with
    | VStr "zeros" => repeat 0%Z (numel sh)
    | _ => repeat 1%Z (numel sh)
    end;
  Dropout_call rate training t :=
    if training
    then imap (fun i x => if Nat.even i then x else 0%Z) (data t)
    else data t;
|}.

(** The position layer that the constructor gives on this host without
    keyword arguments, when it gives one. *)
Definition position_layer (mode : option string) (output_dim : option Z)
  : gmap string value :=
  <["name" := VStr "layer"]>
    (<["trainable" := VBool true]>
       (SineCosinePositionEmbedding.initial_attrs mode output_dim)).

(** [FeedForward(3)] on this host, with or without dropout. *)
Definition feed_forward (rate : Q) : @FeedForward.instance Z backend := {|
  FeedForward.base :=
    <["name" := VStr "layer"]> (<["trainable" := VBool true]> ∅);
  FeedForward.supports_masking := true;
  FeedForward.units := 3;
  FeedForward.activation := Some ("relu" : @Activation Z backend);
  FeedForward.kernel_initializer := VStr "glorot_normal";
  FeedForward.kernel_regularizer := VNone;
  FeedForward.kernel_constraint := VNone;
  FeedForward.bias_initializer := VStr "zeros";
  FeedForward.bias_regularizer := VNone;
  FeedForward.bias_constraint := VNone;
  FeedForward.use_bias := true;
  FeedForward.dropout_rate := rate;
  FeedForward.W1 := None;
  FeedForward.W2 := None;
  FeedForward.b1 := None;
  FeedForward.b2 := None;
  FeedForward.dropout_layer := None;
|}.

(** [feed_forward rate] once bound to inputs of four features. *)
Definition built (rate : Q) : @FeedForward.instance Z backend :=
  match FeedForward.build (host := layer) (feed_forward rate)
          [None; Some 4%Z] with
  | Ok self => self
  | Raise _ => feed_forward rate
  end.
End Host.

(** A base class whose initialiser assigns [supports_masking] itself, and
    is otherwise the base class of [Host]: [v] is [false] for Keras 2.2,
    whose initialiser resets the flag, and [true] for a base class that
    turns it on for a layer defining [compute_mask]. *)
Module MaskingHost.
Definition layer (v : bool) : Layer := {|
  Layer_init kwargs self :=
    (fun attrs => <["supports_masking" := VBool v]> attrs)
      <$> Layer_init (Layer := Host.layer) kwargs self;
  Layer_build := Layer_build (Layer := Host.layer);
  Layer_get_config := Layer_get_config (Layer := Host.layer);
  Layer_names := Layer_names (Layer := Host.layer);
|}.
End MaskingHost.

(** * Properties *)

(** ** Lists, indices and tensor operations *)

Lemma bind_Ok {A B} (a : A) (f : A → result B) : Ok a ≫= f = f a.
Proof. reflexivity. Qed.

Lemma py_index_last {A} (pre : list A) (x : A) :
  py_index (pre ++ [x]) (-1) = Ok x.
Proof.
  unfold py_index. simpl. rewrite length_app. simpl.
  destruct (Z.ltb_spec (Z.of_nat (length pre + 1) + -1) 0) as [?|_]; [lia|].
  replace (Z.to_nat (Z.of_nat (length pre + 1) + -1)) with (length pre) by lia.
  rewrite nth_error_app2, Nat.sub_diag by lia. reflexivity.
Qed.

Lemma py_init_app {A} (pre : list A) (x : A) : py_init (pre ++ [x]) = pre.
Proof.
  unfold py_init. rewrite length_app. simpl.
  replace (length pre + 1 - 1)%nat with (length pre) by lia.
  apply take_app_length.
Qed.

Lemma at_map_seq {T} (z : T) (g : nat → T) (N j : nat) :
  (j < N)%nat → at_ z (map g (seq 0 N)) j = g j.
Proof.
  intros Hj. unfold at_.
  rewrite (nth_indep _ z (g 0%nat)) by (rewrite length_map, length_seq; lia).
  rewrite (map_nth g (seq 0 N) 0%nat j), seq_nth by lia. reflexivity.
Qed.

Lemma numel_app (a b : list nat) : numel (a ++ b) = (numel a * numel b)%nat.
Proof.
  unfold numel. induction a as [|x a IH]; simpl; [lia|]. rewrite IH. lia.
Qed.

Lemma numel_cons (d : nat) (sh : list nat) : numel (d :: sh) = (d * numel sh)%nat.
Proof. reflexivity. Qed.

Lemma numel_nil : numel [] = 1%nat.
Proof. reflexivity. Qed.

Lemma K_expand_dims_last {T} (t : tensor T) :
  K_expand_dims t (-1) = Ok (Tensor (shape t ++ [1%nat]) (data t)).
Proof.
  unfold K_expand_dims. simpl.
  replace (Z.of_nat (length (shape t)) + 1 + -1)%Z
    with (Z.of_nat (length (shape t))) by lia.
  rewrite Z.ltb_irrefl.
  destruct (Z.ltb_spec (Z.of_nat (length (shape t))) 0) as [?|_]; [lia|]. simpl.
  rewrite Nat2Z.id, firstn_all, drop_all. reflexivity.
Qed.

Lemma K_expand_dims_first {T} (t : tensor T) :
  K_expand_dims t 0 = Ok (Tensor (1%nat :: shape t) (data t)).
Proof.
  unfold K_expand_dims. simpl.
  destruct (Z.ltb_spec (Z.of_nat (length (shape t))) 0) as [?|_]; [lia|].
  reflexivity.
Qed.

Section TensorFacts.
Context {T : Type} (zero : T) (add mul : T → T → T).

Lemma sum_upto_ext (k : nat) (f g : nat → T) :
  (∀ t, f t = g t) → sum_upto zero add k f = sum_upto zero add k g.
Proof.
  intros Hfg. unfold sum_upto.
  induction (seq 0 k) as [|t l IH]; simpl; [reflexivity|].
  rewrite Hfg, IH. reflexivity.
Qed.

(** The product of a tensor whose last axis has length [k] with a
    [k]-by-[n] matrix. *)
Lemma K_dot_matrix (x y : tensor T) (pre : list nat) (k n : nat) :
  shape x = pre ++ [k] → pre ≠ [] → shape y = [k; n] →
  K_dot zero add mul x y
  = Ok (Tensor (pre ++ [n])
          (map (fun m =>
                  sum_upto zero add k (fun t =>
                    mul (at_ zero (data x) (m / n * k + t))
                        (at_ zero (data y) (t * n + m mod n))))
             (seq 0 (numel pre * n)))).
Proof.
  intros Hx Hpre Hy. unfold K_dot. rewrite Hx, Hy, length_app.
  assert (1 ≤ length pre)%nat by (destruct pre; [done|simpl; lia]).
  change (length [k; n]) with 2%nat. change (length [k]) with 1%nat.
  replace (2 <? 2)%nat with false by reflexivity.
  replace (length pre + 1 <? 1)%nat with false by (symmetry; apply Nat.ltb_ge; lia).
  replace (length pre + 1 <? 2)%nat with false by (symmetry; apply Nat.ltb_ge; lia).
  cbn [orb andb]. rewrite last_last, py_init_app.
  change (nth (2 - 2) [k; n] 0%nat) with k.
  change (take (2 - 2) [k; n]) with (@nil nat).
  change (List.last [k; n] 0%nat) with n.
  rewrite Nat.eqb_refl. cbn [negb app]. rewrite numel_nil.
  f_equal. f_equal.
  replace (numel pre * 1 * n)%nat with (numel pre * n)%nat by lia.
  apply map_ext. intros m. cbv zeta.
  apply sum_upto_ext. intros t.
  rewrite Nat.mod_1_r, Nat.mul_0_l, Nat.add_0_l.
  replace (1 * n)%nat with n by lia. reflexivity.
Qed.

Lemma K_bias_add_shape (x b : tensor T) (n : nat) :
  shape b = [n] → (2 ≤ length (shape x))%nat → List.last (shape x) 0%nat = n →
  ∃ out, K_bias_add zero add x b = Ok out ∧ shape out = shape x.
Proof.
  intros Hb Hr Hl. unfold K_bias_add. rewrite Hb.
  replace (length (shape x) <? 2)%nat with false by (symmetry; apply Nat.ltb_ge; lia).
  rewrite Hl, Nat.eqb_refl. simpl. eauto.
Qed.
End TensorFacts.

(** ** SineCosinePositionEmbedding *)

Section PositionFacts.
Context {host : Layer}.
Import SineCosinePositionEmbedding.

Lemma mode_in_spec mode names :
  mode_in mode names = true ↔ ∃ m, mode = Some m ∧ m ∈ names.
Proof.
  destruct mode as [m|]; simpl.
  - rewrite bool_decide_eq_true. naive_solver.
  - naive_solver.
Qed.

Lemma odd_mod d : negb (d mod 2 =? 0)%Z = Z.odd d.
Proof.
  rewrite Zmod_odd. destruct (Z.odd d); reflexivity.
Qed.

Lemma init_outcome self mode output_dim kwargs :
  (rejected mode output_dim ∧
     ∃ e, __init__ self mode output_dim kwargs
          = (<["supports_masking" := VBool true]> self, Raise e)
          ∧ e ∈ [AssertionError mode;
                 NotImplementedError (OutputDimRequired (default "" mode));
                 NotImplementedError (OddOutputDim (default 0%Z output_dim))])
  ∨ (¬ rejected mode output_dim ∧
     __init__ self mode output_dim kwargs
     = match Layer_init kwargs
               (<["output_dim" := of_opt_int output_dim]>
                (<["mode" := of_opt_str mode]>
                 (<["supports_masking" := VBool true]> self))) with
       | Ok self' => (self', Ok ())
       | Raise e =>
           (<["output_dim" := of_opt_int output_dim]>
                (<["mode" := of_opt_str mode]>
                 (<["supports_masking" := VBool true]> self)), Raise e)
       end).
Proof.
  unfold __init__, check_output_dim, rejected.
  destruct mode as [m|]; simpl.
  2:{ left. split; [left; set_solver|]. eexists; split; [reflexivity|set_solver]. }
  destruct (decide (m = "expand")) as [->|].
  { simpl. destruct output_dim as [d|]; simpl.
    - rewrite odd_mod. destruct (Z.odd d) eqn:Hd; simpl.
      + left. split; [right; right; split; [set_solver|eauto]|].
        eexists; split; [reflexivity|set_solver].
      + right. split; [|reflexivity].
        intros [Hc|[[_ Hc]|[_ (d' & Hc & Hd')]]]; [apply Hc; set_solver|discriminate|congruence].
    - left. split; [right; left; split; [set_solver|done]|].
      eexists; split; [reflexivity|set_solver]. }
  destruct (decide (m = "concat")) as [->|].
  { simpl. destruct output_dim as [d|]; simpl.
    - rewrite odd_mod. destruct (Z.odd d) eqn:Hd; simpl.
      + left. split; [right; right; split; [set_solver|eauto]|].
        eexists; split; [reflexivity|set_solver].
      + right. split; [|reflexivity].
        intros [Hc|[[_ Hc]|[_ (d' & Hc & Hd')]]]; [apply Hc; set_solver|discriminate|congruence].
    - left. split; [right; left; split; [set_solver|done]|].
      eexists; split; [reflexivity|set_solver]. }
  destruct (decide (m = "add")) as [->|].
  { simpl. right. split; [|reflexivity].
    intros [Hc|[[Hc _]|[Hc _]]]; set_solver. }
  left. split; [left; set_solver|].
  rewrite (bool_decide_eq_false_2 (m ∈ ["expand"; "add"; "concat"])) by set_solver.
  simpl. eexists; split; [reflexivity|set_solver].
Qed.

Lemma new_Ok mode output_dim kwargs self :
  new mode output_dim kwargs = Ok self ↔
  ¬ rejected mode output_dim
  ∧ Layer_init kwargs (initial_attrs mode output_dim) = Ok self.
Proof.
  unfold new.
  destruct (init_outcome ∅ mode output_dim kwargs) as [[Hr (e & -> & _)]|[Hr ->]].
  - simpl. split; [discriminate|tauto].
  - fold (initial_attrs mode output_dim).
    destruct (Layer_init kwargs (initial_attrs mode output_dim)); simpl.
    + split; [intros [= ->]; auto|intros [_ [= ->]]; auto].
    + split; [discriminate|intros [_ ?]; discriminate].
Qed.

Lemma new_attr names mode output_dim kwargs self k :
  Layer_respects names → k ∈ names →
  new mode output_dim kwargs = Ok self →
  self !! k = initial_attrs mode output_dim !! k.
Proof.
  intros Hh Hk [_ Hi]%new_Ok. exact (Hh _ _ _ _ Hk Hi).
Qed.

Lemma not_rejected_expand_concat mode output_dim :
  ¬ rejected mode output_dim →
  mode ∈ [Some "expand"; Some "concat"] →
  ∃ d, output_dim = Some d ∧ Z.odd d = false.
Proof.
  intros Hr Hm. destruct output_dim as [d|].
  - exists d. split; [done|]. destruct (Z.odd d) eqn:Hd; [|done].
    exfalso. apply Hr. right. right. eauto.
  - exfalso. apply Hr. right. left. auto.
Qed.

(** C4.  Provided the base class accepts the keyword arguments, the
    constructor raises exactly when the mode is not one of ['expand'],
    ['add'], ['concat'], or the mode is ['expand'] or ['concat'] and
    [output_dim] is [None] or odd.  It then raises from the checks of
    lines 174-179: [__init__] has assigned nothing but the flag of line
    173, the base class has not been initialised, and no instance is handed
    out.  With mode ['add'] the constructor succeeds whatever
    [output_dim] is. *)
Theorem construction_fails_exactly_when mode output_dim kwargs :
  (∀ self, is_Ok (Layer_init kwargs self)) →
  (raises (new mode output_dim kwargs) ↔ rejected mode output_dim)
  ∧ (rejected mode output_dim →
     ∀ self, ∃ e,
       __init__ self mode output_dim kwargs
       = (<["supports_masking" := VBool true]> self, Raise e)
       ∧ e ∈ [AssertionError mode;
              NotImplementedError (OutputDimRequired (default "" mode));
              NotImplementedError (OddOutputDim (default 0%Z output_dim))])
  ∧ (mode = Some "add" → is_Ok (new mode output_dim kwargs)).
Proof.
  intros Hhost.
  assert (Hiff : raises (new mode output_dim kwargs) ↔ rejected mode output_dim).
  { unfold new.
    destruct (init_outcome ∅ mode output_dim kwargs) as [[Hr (e & -> & _)]|[Hr ->]].
    - simpl. tauto.
    - specialize (Hhost (initial_attrs mode output_dim)). unfold initial_attrs in Hhost.
      destruct (Layer_init _ _); simpl in *; tauto. }
  split; [exact Hiff|]. split.
  - intros Hr self.
    destruct (init_outcome self mode output_dim kwargs) as [[_ He]|[Hn _]];
      [exact He|contradiction].
  - intros ->.
    destruct (new (Some "add") output_dim kwargs) eqn:E; [exact I|].
    assert (Hc : rejected (Some "add") output_dim) by (apply Hiff; exact I).
    destruct Hc as [Hc|[[Hc _]|[Hc _]]]; set_solver.
Qed.

(** C5.  [compute_output_shape], from the static shape alone: in mode
    ['expand'] the shape with [output_dim] appended; in mode ['concat']
    the shape with its last entry increased by [output_dim]; in mode
    ['add'] the shape itself. *)
Theorem output_shape_by_mode mode output_dim kwargs self input_shape :
  Layer_respects ["mode"; "output_dim"] →
  new mode output_dim kwargs = Ok self →
  (mode = Some "expand" →
     ∃ d, output_dim = Some d
          ∧ compute_output_shape self input_shape = Ok (input_shape ++ [Some d]))
  ∧ (mode = Some "concat" →
     ∃ d, output_dim = Some d
          ∧ ∀ pre n, input_shape = pre ++ [Some n] →
              compute_output_shape self input_shape
              = Ok (pre ++ [Some (n + d)%Z]))
  ∧ (mode = Some "add" → compute_output_shape self input_shape = Ok input_shape).
Proof.
  intros Hh Hnew.
  pose proof (new_attr _ _ _ _ _ "mode" Hh ltac:(set_solver) Hnew) as Hm.
  pose proof (new_attr _ _ _ _ _ "output_dim" Hh ltac:(set_solver) Hnew) as Hd.
  apply new_Ok in Hnew as [Hr _].
  unfold initial_attrs in Hm, Hd. simplify_map_eq.
  unfold compute_output_shape, getattr. rewrite Hm, Hd.
  split; [|split]; intros ->.
  - destruct (not_rejected_expand_concat _ _ Hr ltac:(set_solver)) as (d & -> & _).
    exists d. split; reflexivity.
  - destruct (not_rejected_expand_concat _ _ Hr ltac:(set_solver)) as (d & -> & _).
    exists d. split; [reflexivity|]. intros pre n ->. simpl.
    rewrite py_index_last, py_init_app. reflexivity.
  - reflexivity.
Qed.

(** [call] with an instance that has its [mode] and [output_dim] and on
    which [self.model] finds nothing: the shape of the input is read, then
    the lookup on line 211 raises. *)
Lemma call_without_model (self : gmap string value) mode output_dim
    (inputs : tensor R) (mask : option (tensor R)) :
  self !! "mode" = Some (of_opt_str mode) →
  self !! "output_dim" = Some (of_opt_int output_dim) →
  getattr self "model" = Raise (AttributeError "model") →
  raises (call self inputs mask)
  ∧ ((if bool_decide (mode = Some "add") then 3 else 2)%nat
       ≤ length (shape inputs) →
     call self inputs mask = Raise (AttributeError "model")).
Proof.
  intros Hm Hd Hg.
  assert (Hgm : getattr self "mode" = Ok (of_opt_str mode))
    by (unfold getattr; rewrite Hm; reflexivity).
  assert (Hgd : getattr self "output_dim" = Ok (of_opt_int output_dim))
    by (unfold getattr; rewrite Hd; reflexivity).
  unfold call, K_shape. rewrite Hgm, Hgd, Hg.
  destruct (shape inputs) as [|b [|s [|d rest]]]; simpl.
  - split; [exact I|]. case_bool_decide; lia.
  - split; [exact I|]. case_bool_decide; lia.
  - unfold K_getitem, py_index; simpl.
    destruct (str_is (of_opt_str mode) "add") eqn:E; simpl.
    + split; [exact I|]. destruct mode as [m|]; [|discriminate E].
      simpl in E. apply bool_decide_eq_true in E as ->.
      rewrite bool_decide_eq_true_2 by done. lia.
    + split; [exact I|]. reflexivity.
  - unfold K_getitem, py_index; simpl.
    destruct (str_is (of_opt_str mode) "add"); simpl; split; auto.
Qed.

(** [call] on an input without the axes that lines 209-210 read: the host
    rejects the read of the shape, before line 211 is reached. *)
Lemma call_short_input (self : gmap string value) mode
    (inputs : tensor R) (mask : option (tensor R)) :
  self !! "mode" = Some (of_opt_str mode) →
  (length (shape inputs)
     < (if bool_decide (mode = Some "add") then 3 else 2))%nat →
  call self inputs mask = Raise TensorError.
Proof.
  intros Hm Hlen.
  assert (Hgm : getattr self "mode" = Ok (of_opt_str mode))
    by (unfold getattr; rewrite Hm; reflexivity).
  unfold call, K_shape. rewrite Hgm.
  destruct (shape inputs) as [|b [|s [|d rest]]]; simpl in *;
    try reflexivity.
  - unfold K_getitem, py_index; simpl.
    case_bool_decide as E; [|lia]. subst mode. reflexivity.
  - case_bool_decide; lia.
Qed.

(** C1.  No path through the class assigns [model]: an instance that the
    constructor hands out has no such attribute, and neither has the base
    class.  So for every mode and every input [call] raises and returns no
    tensor.  The exception is the [AttributeError] of line 211 exactly when
    the input has the two axes (three in mode ['add']) that lines 209-210
    read; on an input with fewer axes the host rejects the read of the
    shape first. *)
Theorem call_raises_AttributeError mode output_dim kwargs self inputs mask :
  Layer_respects ["mode"; "output_dim"; "model"] →
  "model" ∉ Layer_names →
  new mode output_dim kwargs = Ok self →
  self !! "model" = None
  ∧ raises (call self inputs mask)
  ∧ ((if bool_decide (mode = Some "add") then 3 else 2)%nat
       ≤ length (shape inputs) →
     call self inputs mask = Raise (AttributeError "model"))
  ∧ ((length (shape inputs)
        < (if bool_decide (mode = Some "add") then 3 else 2))%nat →
     call self inputs mask = Raise TensorError).
Proof.
  intros Hh Hn Hnew.
  pose proof (new_attr _ _ _ _ _ "mode" Hh ltac:(set_solver) Hnew) as Hm.
  pose proof (new_attr _ _ _ _ _ "output_dim" Hh ltac:(set_solver) Hnew) as Hd.
  pose proof (new_attr _ _ _ _ _ "model" Hh ltac:(set_solver) Hnew) as Hx.
  unfold initial_attrs in Hm, Hd, Hx. simplify_map_eq.
  split; [exact Hx|].
  assert (Hg : getattr self "model" = Raise (AttributeError "model")).
  { unfold getattr. rewrite Hx.
    rewrite (bool_decide_eq_false_2 ("model" ∈ class_names))
      by (unfold class_names; set_solver).
    rewrite (bool_decide_eq_false_2 _ Hn). reflexivity. }
  destruct (call_without_model self mode output_dim inputs mask Hm Hd Hg)
    as [Hr Ha].
  split; [exact Hr|]. split; [exact Ha|].
  apply call_short_input. exact Hm.
Qed.
End PositionFacts.

(** ** The encoding, were it reached *)

Section EncodingFacts.
Import SineCosinePositionEmbedding.

Lemma K_arange_0 (n : nat) :
  K_arange 0 (Z.of_nat n) = Tensor [n] (map Z.of_nat (seq 0 n)).
Proof.
  unfold K_arange. rewrite Z.sub_0_r, Nat2Z.id. reflexivity.
Qed.

(** Reshaping to [[-1, s, d]] a tensor of [b * (s * d)] elements. *)
Lemma K_reshape_rows {T} (t : tensor T) (b : nat) (s d : Z) :
  (0 < s)%Z → (0 < d)%Z →
  numel (shape t) = (b * (Z.to_nat s * Z.to_nat d))%nat →
  K_reshape t [(-1)%Z; s; d] = Ok (Tensor [b; Z.to_nat s; Z.to_nat d] (data t)).
Proof.
  intros Hs Hd Hn. unfold K_reshape.
  assert (Hf1 : filter (fun x : Z => x = (-1)%Z) [(-1)%Z; s; d] = [(-1)%Z]).
  { rewrite filter_cons_True by done.
    rewrite filter_cons_False by lia. rewrite filter_cons_False by lia. done. }
  assert (Hf2 : filter (fun x : Z => x ≠ (-1)%Z) [(-1)%Z; s; d] = [s; d]).
  { rewrite filter_cons_False by (intros Hc; apply Hc; reflexivity).
    rewrite filter_cons_True by lia. rewrite filter_cons_True by lia. done. }
  rewrite Hf1, Hf2.
  replace (forallb (Z.leb (-1)) [(-1)%Z; s; d]) with true.
  2:{ simpl. symmetry. rewrite !andb_true_iff. repeat split; lia. }
  cbn [negb length map]. rewrite !numel_cons, numel_nil, Nat.mul_1_r, Hn.
  set (k := (Z.to_nat s * Z.to_nat d)%nat).
  assert (0 < k)%nat by (unfold k; nia).
  replace (k =? 0)%nat with false by (symmetry; apply Nat.eqb_neq; lia).
  rewrite Nat.Div0.mod_mul, Nat.div_mul by lia. cbn [Nat.eqb negb].
  replace (s =? -1)%Z with false by lia.
  replace (d =? -1)%Z with false by lia.
  reflexivity.
Qed.

Lemma Rpower_10000_pos (e : R) : (0 < Rpower 10000.0 e)%R.
Proof. unfold Rpower. apply exp_pos. Qed.

(** Lines 215-236 on [b] rows of [s] positions and an even width
    [2 * h]: a tensor of shape [(b, s, 2 * h)] that holds, for the position
    [p] and the index [i], the sine of [p / 10000^(2i / output_dim)] in
    channel [2 * i] and its cosine in channel [2 * i + 1]. *)
Lemma encode_interleaves (pos_input : anytensor) (b s h : nat) :
  shape (K_cast_floatx pos_input) = [b; s] → (0 < s)%nat → (0 < h)%nat →
  ∃ out,
    encode pos_input (Z.of_nat s) (VInt (2 * Z.of_nat h)) = Ok out
    ∧ shape out = [b; s; (2 * h)%nat]
    ∧ ∀ n i, (n < b * s)%nat → (i < h)%nat →
        let p := at_ 0%R (data (K_cast_floatx pos_input)) n in
        let w := Rpower 10000
                   (IZR (2 * Z.of_nat i) / IZR (2 * Z.of_nat h)) in
        at_ 0%R (data out) (n * (2 * h) + 2 * i) = sin (p / w)
        ∧ at_ 0%R (data out) (n * (2 * h) + 2 * i + 1) = cos (p / w).
Proof.
  intros Hp Hs Hh. unfold encode.
  set (p := K_cast_floatx pos_input) in *.
  set (od := (2 * Z.of_nat h)%Z).
  cbn [as_int]. rewrite bind_Ok.
  replace (od / 2)%Z with (Z.of_nat h)
    by (unfold od; rewrite Z.mul_comm, Z.div_mul; lia).
  rewrite K_arange_0, K_expand_dims_last, !bind_Ok.
  unfold frequencies, tmap. cbn [shape data].
  rewrite !K_expand_dims_first, !bind_Ok. cbn [shape data].
  rewrite Hp.
  rewrite (K_dot_matrix _ _ _ _ _ [b; s] 1%nat h) by (cbn [shape]; congruence).
  rewrite !bind_Ok.
  rewrite (K_dot_matrix _ _ _ _ _ [b; s] 1%nat h) by (cbn [shape]; congruence).
  rewrite bind_Ok. cbn [shape data].
  unfold K_stack2. cbn [shape data].
  rewrite bool_decide_eq_true_2 by reflexivity. cbn [negb]. rewrite bind_Ok.
  rewrite (K_reshape_rows _ b (Z.of_nat s) od);
    [|lia|unfold od; lia|].
  2:{ cbn [shape]. rewrite !numel_app, !numel_cons, !numel_nil.
      unfold od. rewrite Nat2Z.id.
      replace (Z.to_nat (2 * Z.of_nat h)) with (2 * h)%nat by lia. lia. }
  eexists. split; [reflexivity|]. cbn [shape data]. split.
  { unfold od. rewrite Nat2Z.id. f_equal. f_equal. f_equal. lia. }
  intros n i Hn Hi. cbv zeta.
  assert (Hnum : numel ([b; s] ++ [h]) = (b * s * h)%nat)
    by (rewrite numel_app, !numel_cons, !numel_nil; lia).
  assert (Hnum2 : numel [b; s] = (b * s)%nat)
    by (rewrite !numel_cons, !numel_nil; lia).
  rewrite Hnum, Hnum2.
  assert (Hidx : (n * h + i < b * s * h)%nat) by nia.
  assert (Hdiv : ((n * h + i) / h = n)%nat).
  { rewrite Nat.add_comm. rewrite Nat.div_add by lia.
    rewrite Nat.div_small by lia. reflexivity. }
  assert (Hmod : ((n * h + i) mod h = i)%nat).
  { rewrite Nat.add_comm, Nat.Div0.mod_add. apply Nat.mod_small. lia. }
  split.
  - rewrite at_map_seq by nia.
    replace (Nat.even (n * (2 * h) + 2 * i)) with true.
    2:{ symmetry. replace (n * (2 * h) + 2 * i)%nat with (2 * (n * h + i))%nat by lia.
        rewrite Nat.even_mul. reflexivity. }
    replace ((n * (2 * h) + 2 * i) / 2)%nat with (n * h + i)%nat.
    2:{ replace (n * (2 * h) + 2 * i)%nat with ((n * h + i) * 2)%nat by lia.
        rewrite Nat.div_mul; lia. }
    rewrite !map_map. rewrite at_map_seq by lia.
    rewrite Hdiv, Hmod. f_equal.
    unfold sum_upto. cbn [seq foldr]. rewrite Nat.mul_1_r, Nat.add_0_r, Nat.mul_0_l, Nat.add_0_l.
    rewrite at_map_seq by lia.
    replace (Z.of_nat i * 2)%Z with (2 * Z.of_nat i)%Z by lia.
    pose proof (Rpower_10000_pos (IZR (2 * Z.of_nat i) / IZR od)) as Hpos.
    replace (10000.0)%R with 10000%R in * by lra.
    replace (1.0)%R with 1%R by lra.
    fold od. set (w := Rpower _ _) in *. field. lra.
  - rewrite at_map_seq by nia.
    replace (Nat.even (n * (2 * h) + 2 * i + 1)) with false.
    2:{ symmetry. replace (n * (2 * h) + 2 * i + 1)%nat with (1 + 2 * (n * h + i))%nat by lia.
        rewrite Nat.even_add_mul_2. reflexivity. }
    replace ((n * (2 * h) + 2 * i + 1) / 2)%nat with (n * h + i)%nat.
    2:{ replace (n * (2 * h) + 2 * i + 1)%nat with (1 + (n * h + i) * 2)%nat by lia.
        rewrite Nat.div_add by lia. reflexivity. }
    rewrite !map_map. rewrite at_map_seq by lia.
    rewrite Hdiv, Hmod. f_equal.
    unfold sum_upto. cbn [seq foldr]. rewrite Nat.mul_1_r, Nat.add_0_r, Nat.mul_0_l, Nat.add_0_l.
    rewrite at_map_seq by lia.
    replace (Z.of_nat i * 2 + 1 - 1)%Z with (2 * Z.of_nat i)%Z by lia.
    pose proof (Rpower_10000_pos (IZR (2 * Z.of_nat i) / IZR od)) as Hpos.
    replace (10000.0)%R with 10000%R in * by lra.
    replace (1.0)%R with 1%R by lra.
    fold od. set (w := Rpower _ _) in *. field. lra.
Qed.

(** Lines 211-214 for a value of [self.model] among ['add'] and
    ['concat']: the positions are [0 .. seq_len - 1] in each of the
    [batch_size] rows; for any other value they are the input. *)
Lemma positions_arange (model : value) (b s : nat) (inputs : tensor R) :
  str_is model "add" || str_is model "concat" = true →
  positions model (Z.of_nat b) (Z.of_nat s) inputs
  = Ok (TInt (Tensor [b; s]
                (map (fun n => Z.of_nat (n mod s)) (seq 0 (b * s))))).
Proof.
  intros Hm. unfold positions. rewrite Hm, K_arange_0, K_expand_dims_first.
  rewrite bind_Ok. unfold K_tile. cbn [shape data length map zip_with].
  replace (forallb (Z.leb 0) [Z.of_nat b; 1%Z]) with true.
  2:{ symmetry. cbn [forallb]. rewrite !andb_true_iff.
      repeat split; try reflexivity. apply Z.leb_le. lia. }
  cbn [Nat.eqb negb]. rewrite Nat2Z.id.
  change (Z.to_nat 1) with 1%nat.
  replace (1 * b)%nat with b by lia. replace (s * 1)%nat with s by lia.
  rewrite !numel_cons, numel_nil, Nat.mul_1_r, bind_Ok.
  f_equal. f_equal. f_equal.
  apply map_ext_in. intros n Hn%in_seq.
  assert (0 < s)%nat by nia.
  cbn [unravel zip_with ravel]. rewrite !numel_cons, numel_nil.
  rewrite Nat.mod_1_r, Nat.div_1_r, Nat.Div0.mod_mod.
  pose proof (Nat.mod_upper_bound n s ltac:(lia)).
  rewrite at_map_seq by lia. f_equal. lia.
Qed.

Lemma positions_inputs (model : value) (batch_size seq_len : Z)
    (inputs : tensor R) :
  str_is model "add" || str_is model "concat" = false →
  positions model batch_size seq_len inputs = Ok (TFloat inputs).
Proof. intros Hm. unfold positions. rewrite Hm. reflexivity. Qed.
End EncodingFacts.

(** ** FeedForward *)

Section FeedForwardFacts.
Context {T : Type} {host : Layer} {backend : Backend T}.
Import FeedForward.

Lemma add_weight_Ok (sh : list Z) i r c (nm : string) :
  Forall (fun d => 0 ≤ d)%Z sh →
  add_weight sh i r c nm
  = Ok {| w_name := nm;
          w_value := Tensor (map Z.to_nat sh) (initial_value i nm (map Z.to_nat sh));
          w_regularizer := r; w_constraint := c |}.
Proof.
  intros Hsh. unfold add_weight.
  replace (forallb (Z.leb 0) sh) with true; [reflexivity|].
  symmetry. apply forallb_forall. intros d Hd.
  apply Z.leb_le. rewrite Forall_forall in Hsh. apply Hsh.
  apply list_elem_of_In. exact Hd.
Qed.

Lemma add_weight_inv (sh : list Z) i r c (nm : string) w :
  add_weight sh i r c nm = Ok w → shape (w_value w) = map Z.to_nat sh.
Proof.
  unfold add_weight. destruct (forallb _ _); simpl; [|discriminate].
  intros [= <-]. reflexivity.
Qed.

(** [build] leaves the layer bound, with its configuration untouched. *)
Lemma build_bound (self self' : instance) (input_shape : list (option Z)) :
  build self input_shape = Ok self' →
  bound self' ∧ configuration self' = configuration self.
Proof.
  unfold build. 
  destruct (py_index input_shape (-1) ≫= py_int) as [fd|]; [|discriminate].
  rewrite bind_Ok.
  destruct (name self) as [nm|]; [|discriminate]. rewrite bind_Ok.
  destruct (add_weight [fd; units self] _ _ _ _) as [w1|]; [|discriminate].
  rewrite bind_Ok.
  destruct (add_weight [units self; fd] _ _ _ _) as [w2|]; [|discriminate].
  rewrite bind_Ok.
  destruct (use_bias self) eqn:Hb.
  - destruct (add_weight [units self] _ _ _ _) as [v1|]; [|discriminate].
    rewrite bind_Ok.
    destruct (add_weight [fd] _ _ _ _) as [v2|]; [|discriminate].
    rewrite !bind_Ok. intros [= <-]. unfold bound, configuration. simpl.
    rewrite Hb. repeat split; eauto.
    intros Hp. rewrite Hp. reflexivity.
  - rewrite bind_Ok. intros [= <-]. unfold bound, configuration. simpl.
    rewrite Hb. repeat split; eauto; try discriminate.
    intros Hp. rewrite Hp. reflexivity.
Qed.

(** [call] takes the steps of [steps self], in that order. *)
Lemma call_steps (self : instance) inputs mask training phase :
  call self inputs mask training phase
  = run_steps self phase (steps self) inputs.
Proof.
  unfold call, steps, run_steps, pipeline, enabled. cbn [List.filter].
  destruct (use_bias self), (activation self) as [a|] eqn:Ha,
    (positive (dropout_rate self)); cbv [foldl run_step]; rewrite ?Ha;
    repeat first
      [ reflexivity
      | match goal with
        | |- context [attr ?n ?f ≫= _] =>
            destruct (attr n f); cbn [mbind result_bind]
        | |- context [K_bias_add ?z ?a ?x ?y ≫= _] =>
            destruct (K_bias_add z a x y); cbn [mbind result_bind]
        | |- context [K_dot ?z ?a ?m ?x ?y ≫= _] =>
            destruct (K_dot z a m x y); cbn [mbind result_bind]
        end ].
Qed.

(** On a bound layer [call] is the composition that the specification
    writes [Dense2(Dropout(Activation(Dense1(input))))]. *)
Lemma call_spec_forward (self : instance) w1 w2 inputs mask training phase :
  bound self → W1 self = Some w1 → W2 self = Some w2 →
  call self inputs mask training phase
  = spec_forward (activation self) (dropout_rate self)
      (w_value w1) (w_value w2)
      (bias_of self (b1 self)) (bias_of self (b2 self)) phase inputs.
Proof.
  intros (_ & _ & Hb & Hd) H1 H2.
  unfold call, spec_forward, Dense, Activation_of, Dropout_of, bias_of.
  rewrite H1, H2. cbn [attr]. rewrite bind_Ok.
  destruct (K_dot zero add mul inputs (w_value w1)) as [h|]; [|reflexivity].
  rewrite !bind_Ok.
  destruct (use_bias self).
  - destruct (Hb eq_refl) as [[v1 ->] [v2 ->]]. cbn [attr fmap option_fmap option_map].
    rewrite bind_Ok.
    destruct (K_bias_add zero add h (w_value v1)) as [h'|]; [|reflexivity].
    rewrite bind_Ok.
    destruct (positive (dropout_rate self)).
    + rewrite (Hd eq_refl). cbn [attr].
      destruct (activation self); rewrite !bind_Ok;
        destruct (K_dot _ _ _ _ _); try reflexivity; rewrite !bind_Ok;
        destruct (K_bias_add _ _ _ _); reflexivity.
    + destruct (activation self); rewrite !bind_Ok;
        destruct (K_dot _ _ _ _ _); try reflexivity; rewrite !bind_Ok;
        destruct (K_bias_add _ _ _ _); reflexivity.
  - rewrite !bind_Ok.
    destruct (positive (dropout_rate self)).
    + rewrite (Hd eq_refl). cbn [attr].
      destruct (activation self); rewrite !bind_Ok;
        destruct (K_dot _ _ _ _ _); reflexivity.
    + destruct (activation self); rewrite !bind_Ok;
        destruct (K_dot _ _ _ _ _); reflexivity.
Qed.

(** A dense map sends [batch ++ [k]] to [batch ++ [n]]. *)
Lemma Dense_shape (w : tensor T) (b : option (tensor T)) (x : tensor T)
    (batch : list nat) (k n : nat) :
  batch ≠ [] → shape x = batch ++ [k] → shape w = [k; n] →
  (∀ v, b = Some v → shape v = [n]) →
  ∃ out, Dense w b x = Ok out ∧ shape out = batch ++ [n].
Proof.
  intros Hb Hx Hw Hv. unfold Dense.
  rewrite (K_dot_matrix _ _ _ _ _ batch k n Hx Hb Hw), bind_Ok.
  destruct b as [v|]; [|eauto].
  destruct (K_bias_add_shape zero add
              (Tensor (batch ++ [n])
                 (map (fun m => sum_upto zero add k (fun t =>
                    mul (at_ zero (data x) (m / n * k + t))
                        (at_ zero (data w) (t * n + m mod n))))
                    (seq 0 (numel batch * n)))) v n (Hv v eq_refl))
    as (out & -> & Hout).
  - cbn [shape]. rewrite length_app. simpl. destruct batch; [done|simpl; lia].
  - cbn [shape]. apply last_last.
  - eauto.
Qed.

Lemma Activation_of_shape (a : option Activation) (x : tensor T) :
  shape (Activation_of a x) = shape x.
Proof. destruct a; reflexivity. Qed.

Lemma Dropout_of_shape (rate : Q) (phase : Phase) (x : tensor T) :
  shape (Dropout_of rate phase x) = shape x.
Proof. unfold Dropout_of. destruct (positive rate); reflexivity. Qed.

Lemma positive_spec (rate : Q) : positive rate = true ↔ (0 < rate)%Q.
Proof.
  unfold positive. rewrite negb_true_iff, <- not_true_iff_false, Qle_bool_iff.
  split; [apply Qnot_le_lt|apply Qlt_not_le].
Qed.

Lemma name_Ok (self : instance) (nm : string) :
  base self !! "name" = Some (VStr nm) → name self = Ok nm.
Proof. intros Hn. unfold name. rewrite Hn. reflexivity. Qed.

(** [build] succeeds on a static shape whose last entry is known, and
    gives the weights the shapes [(feature_dim, units)], [(units,
    feature_dim)], [(units,)] and [(feature_dim,)]. *)
Lemma build_Ok (self0 : instance) (batch_shape : list (option Z)) (fd : Z)
    (nm : string) :
  base self0 !! "name" = Some (VStr nm) →
  (0 ≤ units self0)%Z → (0 ≤ fd)%Z →
  ∃ self w1 w2,
    build self0 (batch_shape ++ [Some fd]) = Ok self
    ∧ W1 self = Some w1
    ∧ shape (w_value w1) = [Z.to_nat fd; Z.to_nat (units self0)]
    ∧ W2 self = Some w2
    ∧ shape (w_value w2) = [Z.to_nat (units self0); Z.to_nat fd]
    ∧ (∀ v, bias_of self (b1 self) = Some v →
         shape v = [Z.to_nat (units self0)])
    ∧ (∀ v, bias_of self (b2 self) = Some v → shape v = [Z.to_nat fd]).
Proof.
  intros Hn Hu Hf. unfold build.
  rewrite py_index_last, bind_Ok. cbn [py_int]. rewrite bind_Ok.
  rewrite (name_Ok _ _ Hn), bind_Ok.
  rewrite !add_weight_Ok by (repeat constructor; assumption).
  rewrite !bind_Ok. unfold bias_of.
  destruct (use_bias self0) eqn:Hb.
  - rewrite !bind_Ok. eexists _, _, _. split; [reflexivity|]. cbn.
    repeat split; try reflexivity; intros v [= <-]; reflexivity.
  - rewrite !bind_Ok. eexists _, _, _. split; [reflexivity|]. cbn.
    repeat split; try reflexivity; intros v [=].
Qed.

(** C6.  For a feature dimension and a width that are valid (not
    negative), binding the layer to a static shape with that trailing
    dimension succeeds and builds [W1] of shape [(feature_dim, units)] and
    [W2] of shape [(units, feature_dim)]; [compute_output_shape] returns
    the shape it is given; and [call], on every input whose trailing
    dimension is [feature_dim], returns a tensor of the shape of its
    input. *)
Theorem feed_forward_preserves_shape (self0 : instance)
    (batch_shape : list (option Z)) (fd : Z) (nm : string) :
  base self0 !! "name" = Some (VStr nm) →
  (0 ≤ units self0)%Z → (0 ≤ fd)%Z →
  ∃ self w1 w2,
    build self0 (batch_shape ++ [Some fd]) = Ok self
    ∧ W1 self = Some w1
    ∧ shape (w_value w1) = [Z.to_nat fd; Z.to_nat (units self0)]
    ∧ W2 self = Some w2
    ∧ shape (w_value w2) = [Z.to_nat (units self0); Z.to_nat fd]
    ∧ (∀ input_shape, compute_output_shape self input_shape = input_shape)
    ∧ ∀ inputs batch mask training phase,
        batch ≠ [] → shape inputs = batch ++ [Z.to_nat fd] →
        ∃ out, call self inputs mask training phase = Ok out
               ∧ shape out = shape inputs.
Proof.
  intros Hn Hu Hf.
  destruct (build_Ok self0 batch_shape fd nm Hn Hu Hf)
    as (self & w1 & w2 & Hbuild & H1 & Hs1 & H2 & Hs2 & Hv1 & Hv2).
  exists self, w1, w2. repeat (split; [assumption|]).
  split; [reflexivity|].
  intros inputs batch mask training phase Hbatch Hin.
  destruct (build_bound _ _ _ Hbuild) as [Hbound _].
  rewrite (call_spec_forward self w1 w2 _ _ _ _ Hbound H1 H2).
  unfold spec_forward.
  destruct (Dense_shape (w_value w1) (bias_of self (b1 self)) inputs batch
              _ _ Hbatch Hin Hs1 Hv1) as (h & -> & Hh).
  rewrite bind_Ok.
  destruct (Dense_shape (w_value w2) (bias_of self (b2 self))
              (Dropout_of (dropout_rate self) phase
                 (Activation_of (activation self) h)) batch
              _ _ Hbatch
              ltac:(rewrite Dropout_of_shape, Activation_of_shape; exact Hh)
              Hs2 Hv2) as (out & -> & Hout).
  exists out. split; [reflexivity|]. congruence.
Qed.

(** C7, as the code has it.  [call] performs, in this order, the steps of
    [pipeline] that the configuration enables: the product with [W1]; the
    addition of [b1] if [use_bias]; the activation if one is configured;
    the dropout if [dropout_rate > 0]; the product with [W2]; the addition
    of [b2] if [use_bias].  On a built layer this is
    [Dense2(Dropout(Activation(Dense1(input))))].  The two bias additions
    are switched by the one flag [use_bias]; the activation and the
    dropout each have their own switch. *)
Theorem call_fixed_order (self0 self : instance)
    (input_shape : list (option Z)) :
  build self0 input_shape = Ok self →
  (∀ inputs mask training phase,
     call self inputs mask training phase
     = run_steps self phase (steps self) inputs)
  ∧ steps self = List.filter (enabled self) pipeline
  ∧ pipeline = [LinearW1; BiasB1; Nonlinearity; DropoutStep; LinearW2; BiasB2]
  ∧ (∀ s, In s (steps self) ↔
       match s with
       | LinearW1 | LinearW2 => True
       | BiasB1 | BiasB2 => use_bias self = true
       | Nonlinearity => is_Some (activation self)
       | DropoutStep => (0 < dropout_rate self)%Q
       end)
  ∧ ∃ w1 w2,
      W1 self = Some w1 ∧ W2 self = Some w2
      ∧ ∀ inputs mask training phase,
          call self inputs mask training phase
          = spec_forward (activation self) (dropout_rate self)
              (w_value w1) (w_value w2)
              (bias_of self (b1 self)) (bias_of self (b2 self)) phase inputs.
Proof.
  intros Hbuild. split; [intros; apply call_steps|].
  split; [reflexivity|]. split; [reflexivity|]. split.
  - intros s. unfold steps. rewrite filter_In. split.
    + intros [_ He]. destruct s; simpl in He; try exact I; try assumption.
      * destruct (activation self); [eauto|discriminate].
      * apply positive_spec. assumption.
    + intros Hs. split; [destruct s; simpl; tauto|].
      destruct s; simpl; auto.
      * destruct Hs as [? ->]. reflexivity.
      * apply positive_spec. assumption.
  - destruct (build_bound _ _ _ Hbuild) as [Hbound _].
    destruct Hbound as ([w1 H1] & [w2 H2] & Hrest).
    exists w1, w2. repeat split; try assumption. intros.
    apply call_spec_forward; [|assumption..].
    unfold bound. rewrite H1, H2. destruct Hrest. eauto.
Qed.

(** C8.  With [dropout_rate = 0.0] a layer that [__init__] has made and
    [build] has bound has no dropout layer, and [call] does not depend on
    the training flag or on the phase of the host: whatever the weights
    have become, two evaluations of an input agree. *)
Theorem no_dropout_deterministic units a ki kr kc bi br bc ub kwargs
    (self0 self : instance) (input_shape : list (option Z)) :
  __init__ units a ki kr kc bi br bc ub 0 kwargs = Ok self0 →
  build self0 input_shape = Ok self →
  dropout_layer self = None
  ∧ ∀ self' : instance,
      dropout_rate self' = dropout_rate self →
      ∀ inputs mask training training' phase phase',
        call self' inputs mask training phase
        = call self' inputs mask training' phase'.
Proof.
  intros Hinit Hbuild.
  assert (H0 : dropout_rate self0 = 0%Q ∧ dropout_layer self0 = None).
  { revert Hinit. unfold __init__.
    repeat match goal with
      | |- context [?r ≫= _] =>
          destruct r; cbn [mbind result_bind]; [|discriminate]
      end.
    intros [= <-]. split; reflexivity. }
  destruct H0 as [Hr Hl].
  assert (Hself : dropout_rate self = 0%Q ∧ dropout_layer self = None).
  { revert Hbuild. unfold build.
    repeat match goal with
      | |- context [?r ≫= _] =>
          destruct r; cbn [mbind result_bind]; [|discriminate]
      end.
    intros [= <-]. cbn. rewrite Hr, Hl. split; reflexivity. }
  destruct Hself as [Hr' Hl']. split; [exact Hl'|].
  intros self' Hrate inputs mask training training' phase phase'.
  unfold call. rewrite Hrate, Hr'. reflexivity.
Qed.
End FeedForwardFacts.

(** ** Configuration round trip *)

Section RoundTrip.
Context {T : Type} {host : Layer} {backend : Backend T}.


Lemma lookup_dict_update (base_config config : gmap string value) k v :
  config !! k = Some v → dict_update base_config config !! k = Some v.
Proof. intros Hk. unfold dict_update. apply lookup_union_Some_l. exact Hk. Qed.


Import FeedForward.

(** The entries that [FeedForward.get_config] adds to the base
    configuration. *)
Lemma get_config_entries (self : instance) :
  let c := get_config self in
  c !! "units" = Some (VInt (units self))
  ∧ c !! "activation" = Some (activations_serialize (activation self))
  ∧ c !! "kernel_initializer"
    = Some (initializers_serialize (kernel_initializer self))
  ∧ c !! "kernel_regularizer"
    = Some (regularizers_serialize (kernel_regularizer self))
  ∧ c !! "kernel_constraint"
    = Some (constraints_serialize (kernel_constraint self))
  ∧ c !! "bias_initializer"
    = Some (initializers_serialize (bias_initializer self))
  ∧ c !! "bias_regularizer"
    = Some (regularizers_serialize (bias_regularizer self))
  ∧ c !! "bias_constraint"
    = Some (constraints_serialize (bias_constraint self))
  ∧ c !! "use_bias" = Some (VBool (use_bias self))
  ∧ c !! "dropout_rate" = Some (VFloat (dropout_rate self)).
Proof.
  cbv zeta. unfold get_config.
  repeat split; apply lookup_dict_update; by simplify_map_eq.
Qed.




Import SineCosinePositionEmbedding.


End RoundTrip.

(** ** gelu *)

Lemma tanh_odd (y : R) : tanh (- y) = (- tanh y)%R.
Proof.
  unfold tanh, sinh, cosh. rewrite Ropp_involutive.
  pose proof (exp_pos y). pose proof (exp_pos (- y)).
  field. lra.
Qed.

(** C10.  [gelu x] is [0.5 x (1 + tanh (sqrt (2 / pi) (x + 0.044715 x^3)))]
    on the reals; [gelu 0 = 0]; the argument of [tanh] is odd in [x], and so
    is the [tanh] term, whence [gelu x - gelu (- x) = x]. *)
Theorem gelu_closed_form :
  (∀ x : R,
     gelu x
     = (0.5 * x * (1 + tanh (sqrt (2 / PI) * (x + 0.044715 * (x * x * x)))))%R)
  ∧ gelu 0 = 0%R
  ∧ (∀ x : R,
       tanh (sqrt (2 / PI) * (- x + 0.044715 * (- x * - x * - x)))
       = (- tanh (sqrt (2 / PI) * (x + 0.044715 * (x * x * x))))%R)
  ∧ (∀ x : R, (gelu x - gelu (- x))%R = x).
Proof.
  assert (Hg : ∀ x : R, gelu x
     = (0.5 * x * (1 + tanh (sqrt (2 / PI) * (x + 0.044715 * (x * x * x)))))%R).
  { intros x. unfold gelu, K_tanh, math_sqrt, math_pi.
    replace (x ^ 3)%R with (x * x * x)%R by ring.
    replace (2.0)%R with 2%R by lra. replace (1.0)%R with 1%R by lra. reflexivity. }
  assert (Ho : ∀ x : R,
       tanh (sqrt (2 / PI) * (- x + 0.044715 * (- x * - x * - x)))
       = (- tanh (sqrt (2 / PI) * (x + 0.044715 * (x * x * x))))%R).
  { intros x. rewrite <- tanh_odd. f_equal. ring. }
  split; [exact Hg|]. split; [|split; [exact Ho|]].
  - rewrite Hg. ring.
  - intros x. rewrite !Hg, Ho. set (t := tanh _). lra.
Qed.

(** ** The layers on the small host *)

Section OnHost.
#[local] Existing Instance Host.layer.
#[local] Existing Instance Host.backend.

Lemma Host_respects (names : list string) :
  "name" ∉ names → "trainable" ∉ names → Layer_respects names.
Proof.
  intros Hn Ht kwargs self self' k Hk. simpl.
  case_bool_decide; [|discriminate]. intros [= <-].
  rewrite !lookup_insert_ne by (intros <-; contradiction). reflexivity.
Qed.


Lemma Host_accepts_nothing (self : gmap string value) :
  is_Ok (Layer_init ∅ self).
Proof. simpl. rewrite bool_decide_eq_true_2; [exact I|set_solver]. Qed.



Lemma Host_new (mode : option string) (output_dim : option Z) :
  ¬ SineCosinePositionEmbedding.rejected mode output_dim →
  SineCosinePositionEmbedding.new mode output_dim ∅
  = Ok (Host.position_layer mode output_dim).
Proof.
  intros Hr. apply new_Ok. split; [exact Hr|]. reflexivity.
Qed.

Lemma Host_no_model (mode : option string) (output_dim : option Z) :
  SineCosinePositionEmbedding.getattr (Host.position_layer mode output_dim)
    "model"
  = Raise (AttributeError "model").
Proof. reflexivity. Qed.

(** The feed-forward layer computes on this host: a row [1 2 3 4]
    through weights of ones and biases of zeros. *)
Example Host_feed_forward_runs :
  FeedForward.call (Host.built 0) (Tensor [1; 4]%nat [1; 2; 3; 4]%Z) None
    None false
  = Ok (Tensor [1; 4]%nat [30; 30; 30; 30]%Z).
Proof. vm_compute. reflexivity. Qed.

Example Host_dropout_runs :
  FeedForward.call (Host.built (1 # 2)) (Tensor [1; 4]%nat [1; 2; 3; 4]%Z)
    None (Some true) true
  = Ok (Tensor [1; 4]%nat [20; 20; 20; 20]%Z).
Proof. vm_compute. reflexivity. Qed.

Import SineCosinePositionEmbedding.

(** C2, on the code.  The constructor gives the layer of mode ['expand']
    and width 4; on the positions 0, 1 and 10 its [call] raises the
    [AttributeError] of line 211 and returns no encoding, where lines
    215-236, had they been reached, give the interleaved sines and cosines
    that the claim describes. *)
Theorem encoding_never_produced :
  let inputs := Tensor [1; 3]%nat [0; 1; 10]%R in
  new (Some "expand") (Some 4%Z) ∅
  = Ok (Host.position_layer (Some "expand") (Some 4%Z))
  ∧ call (Host.position_layer (Some "expand") (Some 4%Z)) inputs None
    = Raise (AttributeError "model")
  ∧ ∃ out,
      encode (TFloat inputs) 3 (VInt 4) = Ok out
      ∧ shape out = [1; 3; 4]%nat
      ∧ ∀ n i, (n < 3)%nat → (i < 2)%nat →
          let p := at_ 0%R (data inputs) n in
          let w := Rpower 10000 (IZR (2 * Z.of_nat i) / 4) in
          at_ 0%R (data out) (n * 4 + 2 * i) = sin (p / w)
          ∧ at_ 0%R (data out) (n * 4 + 2 * i + 1) = cos (p / w).
Proof.
  intros inputs. split; [vm_compute; reflexivity|]. split.
  - apply (call_without_model _ (Some "expand") (Some 4%Z));
      [reflexivity|reflexivity|apply Host_no_model|simpl; lia].
  - destruct (encode_interleaves (TFloat inputs) 1 3 2 eq_refl
                ltac:(lia) ltac:(lia)) as (out & Hout & Hshape & Hdata).
    exists out. split; [exact Hout|]. split; [exact Hshape|].
    intros n i Hn Hi. apply (Hdata n i); lia.
Qed.

(** C3, on the code.  The layers of mode ['add'] and of mode ['expand']
    raise the [AttributeError] of line 211 before any position is chosen:
    the branch that the claim describes reads [self.model], which does not
    exist.  Given a value for it, lines 211-214 do give the positions
    [0 .. seq_len - 1] in every row for ['add'], and the input for
    ['expand']. *)
Theorem positions_never_fed :
  let features := Tensor [2; 3; 4]%nat (repeat 1%R 24) in
  let indices := Tensor [2; 3]%nat [0; 1; 2; 0; 1; 2]%R in
  new (Some "add") None ∅ = Ok (Host.position_layer (Some "add") None)
  ∧ call (Host.position_layer (Some "add") None) features None
    = Raise (AttributeError "model")
  ∧ call (Host.position_layer (Some "expand") (Some 4%Z)) indices None
    = Raise (AttributeError "model")
  ∧ positions (VStr "add") 2 3 features
    = Ok (TInt (Tensor [2; 3]%nat [0; 1; 2; 0; 1; 2]%Z))
  ∧ positions (VStr "expand") 2 3 indices = Ok (TFloat indices).
Proof.
  intros features indices. split; [vm_compute; reflexivity|].
  split; [|split; [|split]].
  - apply (call_without_model _ (Some "add") None);
      [reflexivity|reflexivity|apply Host_no_model|simpl; lia].
  - apply (call_without_model _ (Some "expand") (Some 4%Z));
      [reflexivity|reflexivity|apply Host_no_model|simpl; lia].
  - exact (positions_arange (VStr "add") 2 3 features eq_refl).
  - reflexivity.
Qed.

(** C1, as stated, fails: not every input raises the [AttributeError].
    The constructor gives the layer of mode ['expand'] and width 4; called
    on a tensor of one axis, the read of [input_shape[1]] on line 209 is
    rejected by the host before line 211 looks for [self.model]. *)
Lemma short_input_raises_another_error :
  let self := Host.position_layer (Some "expand") (Some 4%Z) in
  let inputs := Tensor [3]%nat [0; 1; 10]%R in
  new (Some "expand") (Some 4%Z) ∅ = Ok self
  ∧ call self inputs None = Raise TensorError
  ∧ ¬ (∀ mode output_dim self (inputs : tensor R),
         new mode output_dim ∅ = Ok self →
         call self inputs None = Raise (AttributeError "model")).
Proof.
  intros self inputs.
  assert (Hnew : new (Some "expand") (Some 4%Z) ∅ = Ok self)
    by (vm_compute; reflexivity).
  assert (Hcall : call self inputs None = Raise TensorError)
    by (apply (call_short_input _ (Some "expand")); [reflexivity|simpl; lia]).
  split; [exact Hnew|]. split; [exact Hcall|].
  intros Hall. specialize (Hall _ _ _ inputs Hnew).
  rewrite Hcall in Hall. discriminate Hall.
Qed.

Import FeedForward.

(** C7, as stated, fails: the four optional steps are not switched
    independently.  No configuration adds [b1] without adding [b2]. *)
Lemma bias_steps_toggle_together :
  ¬ ∀ t1 t2 t3 t4 : bool,
      ∃ self : FeedForward.instance,
        (In BiasB1 (steps self) ↔ t1 = true)
        ∧ (In Nonlinearity (steps self) ↔ t2 = true)
        ∧ (In DropoutStep (steps self) ↔ t3 = true)
        ∧ (In BiasB2 (steps self) ↔ t4 = true).
Proof.
  intros Hall. destruct (Hall true false false false)
    as (self & H1 & _ & _ & H4).
  assert (Hin : In BiasB1 (steps self)) by (apply H1; reflexivity).
  assert (Hb : use_bias self = true).
  { unfold steps in Hin. apply filter_In in Hin as [_ He]. exact He. }
  assert (Hin2 : In BiasB2 (steps self)).
  { unfold steps. apply filter_In. split; [simpl; tauto|exact Hb]. }
  apply H4 in Hin2. discriminate.
Qed.

(** *** The theorems at concrete inputs *)

Lemma Host_new_expand8 :
  SineCosinePositionEmbedding.new (Some "expand") (Some 8%Z) ∅
  = Ok (Host.position_layer (Some "expand") (Some 8%Z)).
Proof. vm_compute. reflexivity. Qed.

Lemma Host_new_concat6 :
  SineCosinePositionEmbedding.new (Some "concat") (Some 6%Z) ∅
  = Ok (Host.position_layer (Some "concat") (Some 6%Z)).
Proof. vm_compute. reflexivity. Qed.

Lemma Host_new_add :
  SineCosinePositionEmbedding.new (Some "add") None ∅
  = Ok (Host.position_layer (Some "add") None).
Proof. vm_compute. reflexivity. Qed.

Lemma Host_init_feed_forward (rate : Q) :
  FeedForward.__init__ 3 (VStr "relu") (VStr "glorot_normal") VNone VNone
    (VStr "zeros") VNone VNone true rate ∅
  = Ok (Host.feed_forward rate).
Proof. reflexivity. Qed.

Lemma Host_build_feed_forward_0 :
  FeedForward.build (Host.feed_forward 0) [None; Some 4%Z]
  = Ok (Host.built 0).
Proof. vm_compute. reflexivity. Qed.

Lemma Host_build_feed_forward_half :
  FeedForward.build (Host.feed_forward (1 # 2)) [None; Some 4%Z]
  = Ok (Host.built (1 # 2)).
Proof. vm_compute. reflexivity. Qed.

Lemma call_raises_AttributeError_witness :
  let self := Host.position_layer (Some "concat") (Some 6%Z) in
  let inputs := Tensor [2; 5; 8]%nat (repeat 0%R 80) in
  SineCosinePositionEmbedding.new (Some "concat") (Some 6%Z) ∅ = Ok self
  ∧ self !! "model" = None
  ∧ SineCosinePositionEmbedding.call self inputs None
    = Raise (AttributeError "model").
Proof.
  intros self inputs.
  pose proof Host_new_concat6 as Hnew.
  destruct (call_raises_AttributeError (Some "concat") (Some 6%Z) ∅ self
              inputs None
              (Host_respects ["mode"; "output_dim"; "model"]
                 ltac:(set_solver) ltac:(set_solver))
              ltac:(vm_compute; set_solver) Hnew) as (Hm & _ & Hcall & _).
  split; [exact Hnew|]. split; [exact Hm|]. apply Hcall. simpl. lia.
Defined.

Lemma construction_fails_exactly_when_witness :
  raises (SineCosinePositionEmbedding.new (Some "expand") None ∅)
  ∧ raises (SineCosinePositionEmbedding.new (Some "concat") (Some 3%Z) ∅)
  ∧ raises (SineCosinePositionEmbedding.new (Some "sum") (Some 4%Z) ∅)
  ∧ is_Ok (SineCosinePositionEmbedding.new (Some "add") (Some 3%Z) ∅)
  ∧ is_Ok (SineCosinePositionEmbedding.new (Some "add") None ∅).
Proof.
  split; [|split; [|split; [|split]]].
  - apply (construction_fails_exactly_when (Some "expand") None ∅
             Host_accepts_nothing).
    right. left. split; [set_solver|reflexivity].
  - apply (construction_fails_exactly_when (Some "concat") (Some 3%Z) ∅
             Host_accepts_nothing).
    right. right. split; [set_solver|]. exists 3%Z. split; reflexivity.
  - apply (construction_fails_exactly_when (Some "sum") (Some 4%Z) ∅
             Host_accepts_nothing).
    left. set_solver.
  - apply (construction_fails_exactly_when (Some "add") (Some 3%Z) ∅
             Host_accepts_nothing). reflexivity.
  - apply (construction_fails_exactly_when (Some "add") None ∅
             Host_accepts_nothing). reflexivity.
Defined.

Lemma output_shape_by_mode_witness :
  SineCosinePositionEmbedding.compute_output_shape
    (Host.position_layer (Some "expand") (Some 8%Z)) [Some 2%Z; Some 5%Z]
  = Ok [Some 2%Z; Some 5%Z; Some 8%Z]
  ∧ SineCosinePositionEmbedding.compute_output_shape
      (Host.position_layer (Some "concat") (Some 6%Z))
      [None; Some 5%Z; Some 8%Z]
    = Ok [None; Some 5%Z; Some 14%Z]
  ∧ SineCosinePositionEmbedding.compute_output_shape
      (Host.position_layer (Some "add") None) [None; Some 5%Z; Some 8%Z]
    = Ok [None; Some 5%Z; Some 8%Z].
Proof.
  pose proof (Host_respects ["mode"; "output_dim"] ltac:(set_solver)
                ltac:(set_solver)) as Hh.
  split; [|split].
  - destruct (output_shape_by_mode (Some "expand") (Some 8%Z) ∅
                (Host.position_layer (Some "expand") (Some 8%Z))
                [Some 2%Z; Some 5%Z] Hh Host_new_expand8)
      as (He & _ & _).
    destruct (He eq_refl) as (d & [= <-] & ->). reflexivity.
  - destruct (output_shape_by_mode (Some "concat") (Some 6%Z) ∅
                (Host.position_layer (Some "concat") (Some 6%Z))
                [None; Some 5%Z; Some 8%Z] Hh Host_new_concat6)
      as (_ & Hc & _).
    destruct (Hc eq_refl) as (d & [= <-] & Hs).
    exact (Hs [None; Some 5%Z] 8%Z eq_refl).
  - destruct (output_shape_by_mode (Some "add") None ∅
                (Host.position_layer (Some "add") None)
                [None; Some 5%Z; Some 8%Z] Hh Host_new_add)
      as (_ & _ & Ha).
    exact (Ha eq_refl).
Defined.

Lemma feed_forward_preserves_shape_witness :
  ∃ self,
    build (Host.feed_forward 0) [None; None; Some 4%Z] = Ok self
    ∧ ∀ inputs : tensor Z,
        shape inputs = [2; 5; 4]%nat →
        ∃ out, call self inputs None None false = Ok out
               ∧ shape out = [2; 5; 4]%nat.
Proof.
  destruct (feed_forward_preserves_shape (Host.feed_forward 0)
              [None; None] 4%Z "layer" ltac:(reflexivity)
              ltac:(simpl; lia) ltac:(lia))
    as (self & w1 & w2 & Hb & _ & _ & _ & _ & _ & Hcall).
  exists self. split; [exact Hb|]. intros inputs Hs.
  destruct (Hcall inputs [2; 5]%nat None None false ltac:(discriminate) Hs)
    as (out & Ho & Hso).
  exists out. split; [exact Ho|]. congruence.
Defined.

Lemma call_fixed_order_witness :
  build (Host.feed_forward (1 # 2)) [None; Some 4%Z]
  = Ok (Host.built (1 # 2))
  ∧ steps (Host.built (1 # 2)) = pipeline
  ∧ ∀ inputs mask training phase,
      call (Host.built (1 # 2)) inputs mask training phase
      = run_steps (Host.built (1 # 2)) phase pipeline inputs.
Proof.
  pose proof Host_build_feed_forward_half as Hb.
  destruct (call_fixed_order _ _ _ Hb) as (Hcall & _).
  split; [exact Hb|]. split; [vm_compute; reflexivity|]. exact Hcall.
Defined.

Lemma no_dropout_deterministic_witness :
  dropout_layer (Host.built 0) = None
  ∧ call (Host.built 0) (Tensor [1; 4]%nat [1; 2; 3; 4]%Z) None (Some true)
      true
    = call (Host.built 0) (Tensor [1; 4]%nat [1; 2; 3; 4]%Z) None
        (Some false) false.
Proof.
  destruct (no_dropout_deterministic 3 (VStr "relu") (VStr "glorot_normal")
              VNone VNone (VStr "zeros") VNone VNone true ∅
              (Host.feed_forward 0) (Host.built 0) [None; Some 4%Z]
              (Host_init_feed_forward 0) Host_build_feed_forward_0)
    as (Hl & Hcall).
  split; [exact Hl|]. apply Hcall. reflexivity.
Defined.

End OnHost.

(** * Further properties *)

(** ** SineCosinePositionEmbedding: construction and shapes *)

Section PositionMore.
Context {host : Layer}.
Import SineCosinePositionEmbedding.

(** X1.  Which exception the constructor raises, whatever the host: an
    unsupported mode is an [AssertionError], also when [output_dim] is
    missing or odd; for ['expand'] and ['concat'] a missing [output_dim] is
    reported before an odd one could be. *)
Theorem init_error_precedence mode output_dim kwargs :
  (mode ∉ [Some "expand"; Some "add"; Some "concat"] →
   new mode output_dim kwargs = Raise (AssertionError mode))
  ∧ (∀ m, mode = Some m → m ∈ ["expand"; "concat"] → output_dim = None →
       new mode output_dim kwargs
       = Raise (NotImplementedError (OutputDimRequired m)))
  ∧ (∀ m d, mode = Some m → m ∈ ["expand"; "concat"] →
       output_dim = Some d → Z.odd d = true →
       new mode output_dim kwargs
       = Raise (NotImplementedError (OddOutputDim d))).
Proof.
  split; [|split].
  - intros Hm. unfold new, __init__.
    replace (mode_in mode ["expand"; "add"; "concat"]) with false;
      [reflexivity|].
    symmetry. apply not_true_iff_false. intros [m [-> Hin]]%mode_in_spec.
    apply Hm. set_solver.
  - intros m -> Hin ->. unfold new, __init__, check_output_dim. simpl.
    rewrite (bool_decide_eq_true_2 (m ∈ ["expand"; "add"; "concat"]))
      by set_solver.
    rewrite (bool_decide_eq_true_2 _ Hin). reflexivity.
  - intros m d -> Hin -> Hd. unfold new, __init__, check_output_dim. simpl.
    rewrite (bool_decide_eq_true_2 (m ∈ ["expand"; "add"; "concat"]))
      by set_solver.
    rewrite (bool_decide_eq_true_2 _ Hin), odd_mod, Hd. reflexivity.
Qed.

(** X2.  The only check on the width is its parity: for ['expand'] and
    ['concat'] every even [output_dim] is accepted, zero and the negative
    ones too, and ends up in the layer as given. *)
Theorem even_width_accepted mode (d : Z) kwargs :
  Layer_respects ["mode"; "output_dim"] →
  (∀ self, is_Ok (Layer_init kwargs self)) →
  mode ∈ [Some "expand"; Some "concat"] →
  Z.even d = true →
  ∃ self, new mode (Some d) kwargs = Ok self
          ∧ self !! "output_dim" = Some (VInt d)
          ∧ self !! "mode" = Some (of_opt_str mode).
Proof.
  intros Hh Hhost Hm Hd.
  assert (Hr : ¬ rejected mode (Some d)).
  { intros [Hc|[[_ Hc]|[_ (d' & [= <-] & Hodd)]]].
    - apply Hc. set_solver.
    - discriminate.
    - rewrite <- Z.negb_even, Hd in Hodd. discriminate. }
  destruct (Layer_init kwargs (initial_attrs mode (Some d))) as [self|] eqn:E.
  2:{ specialize (Hhost (initial_attrs mode (Some d))). rewrite E in Hhost.
      contradiction. }
  assert (Hnew : new mode (Some d) kwargs = Ok self) by (apply new_Ok; auto).
  exists self. split; [exact Hnew|].
  rewrite (new_attr _ _ _ _ _ "output_dim" Hh ltac:(set_solver) Hnew).
  rewrite (new_attr _ _ _ _ _ "mode" Hh ltac:(set_solver) Hnew).
  unfold initial_attrs. by simplify_map_eq.
Qed.

(** X3.  [compute_output_shape] in mode ['concat'] needs a last entry
    that is known: the empty shape raises [IndexError], a shape that ends
    in an unknown dimension raises [TypeError]; in the modes ['expand'] and
    ['add'] every shape has an answer. *)
Theorem compute_output_shape_edges mode output_dim kwargs self :
  Layer_respects ["mode"; "output_dim"] →
  new mode output_dim kwargs = Ok self →
  (mode = Some "concat" →
     compute_output_shape self [] = Raise IndexError
     ∧ ∀ pre, compute_output_shape self (pre ++ [None]) = Raise TypeError)
  ∧ (mode ≠ Some "concat" →
     ∀ input_shape, is_Ok (compute_output_shape self input_shape)).
Proof.
  intros Hh Hnew.
  pose proof (new_attr _ _ _ _ _ "mode" Hh ltac:(set_solver) Hnew) as Hm.
  pose proof (new_attr _ _ _ _ _ "output_dim" Hh ltac:(set_solver) Hnew) as Hd.
  apply new_Ok in Hnew as [Hr _].
  unfold initial_attrs in Hm, Hd. simplify_map_eq.
  unfold compute_output_shape, getattr. rewrite Hm, Hd. split.
  - intros ->.
    destruct (not_rejected_expand_concat _ _ Hr ltac:(set_solver))
      as (d & -> & _).
    split; [reflexivity|]. intros pre. simpl.
    rewrite py_index_last. reflexivity.
  - intros Hne input_shape. destruct mode as [m|].
    2:{ exfalso. apply Hr. left. set_solver. }
    simpl. destruct (decide (m = "expand")) as [->|Hx].
    + destruct (not_rejected_expand_concat _ _ Hr ltac:(set_solver))
        as (d & -> & _). exact I.
    + rewrite (bool_decide_eq_false_2 _ Hx).
      rewrite (bool_decide_eq_false_2 (m = "concat")) by congruence.
      exact I.
Qed.

(** X4.  [call] reads two entries of the input's shape before anything
    else: on an input with fewer than two axes the host rejects the read of
    line 209, whatever the layer; in mode ['add'] it rejects the read of
    line 210 on an input with exactly two axes.  The error is the host's
    [TensorError], not Python's [IndexError]. *)
Theorem call_low_rank (self : gmap string value) (inputs : tensor R)
    (mask : option (tensor R)) :
  ((length (shape inputs) < 2)%nat →
     call self inputs mask = Raise TensorError)
  ∧ (self !! "mode" = Some (VStr "add") → length (shape inputs) = 2%nat →
     call self inputs mask = Raise TensorError).
Proof.
  unfold call, K_shape. split.
  - intros Hlen. destruct (shape inputs) as [|b [|s rest]];
      [reflexivity|reflexivity|simpl in Hlen; lia].
  - intros Hm Hlen.
    assert (Hg : getattr self "mode" = Ok (VStr "add"))
      by (unfold getattr; rewrite Hm; reflexivity).
    rewrite Hg.
    destruct (shape inputs) as [|b [|s [|d rest]]]; try discriminate Hlen.
    reflexivity.
Qed.

(** X5, first half.  A position layer keeps the flag of line 173 when the
    base initialiser, which runs after it, does not assign
    [supports_masking]. *)
Lemma supports_masking_kept mode output_dim kwargs self :
  Layer_respects ["supports_masking"] →
  new mode output_dim kwargs = Ok self →
  self !! "supports_masking" = Some (VBool true).
Proof.
  intros Hh Hnew.
  rewrite (new_attr _ _ _ _ _ "supports_masking" Hh ltac:(set_solver) Hnew).
  unfold initial_attrs. by simplify_map_eq.
Qed.
End PositionMore.

(** ** SineCosinePositionEmbedding: the lines after the lookup *)

Section EncodingMore.
Import SineCosinePositionEmbedding.

Lemma Rpower_10000_0 : Rpower 10000 0 = 1%R.
Proof. apply Rpower_O. lra. Qed.

(** X6.  What lines 215-236 give for [b] rows of [s] positions and an even
    width [2 * h]: every element lies between -1 and 1; the first two
    channels of a position [p] are [sin p] and [cos p]; and the position 0
    is encoded as 0, 1, 0, 1, ... *)
Theorem encode_bounded_and_origin (pos_input : anytensor) (b s h : nat) :
  shape (K_cast_floatx pos_input) = [b; s] → (0 < s)%nat → (0 < h)%nat →
  ∃ out,
    encode pos_input (Z.of_nat s) (VInt (2 * Z.of_nat h)) = Ok out
    ∧ (∀ m, (m < b * s * (2 * h))%nat →
         (-1 <= at_ 0 (data out) m <= 1)%R)
    ∧ (∀ n, (n < b * s)%nat →
         let p := at_ 0%R (data (K_cast_floatx pos_input)) n in
         at_ 0%R (data out) (n * (2 * h)) = sin p
         ∧ at_ 0%R (data out) (n * (2 * h) + 1) = cos p)
    ∧ (∀ n i, (n < b * s)%nat → (i < h)%nat →
         at_ 0%R (data (K_cast_floatx pos_input)) n = 0%R →
         at_ 0%R (data out) (n * (2 * h) + 2 * i) = 0%R
         ∧ at_ 0%R (data out) (n * (2 * h) + 2 * i + 1) = 1%R).
Proof.
  intros Hp Hs Hh.
  destruct (encode_interleaves pos_input b s h Hp Hs Hh)
    as (out & Hout & _ & Hdata).
  exists out. split; [exact Hout|]. split; [|split].
  - intros m Hm.
    set (n := (m / (2 * h))%nat). set (r := (m mod (2 * h))%nat).
    assert (Hr : (r < 2 * h)%nat) by (apply Nat.mod_upper_bound; lia).
    assert (Hn : (n < b * s)%nat) by (apply Nat.Div0.div_lt_upper_bound; lia).
    assert (Hmr : m = (n * (2 * h) + r)%nat).
    { unfold n, r. rewrite (Nat.div_mod_eq m (2 * h)) at 1. lia. }
    set (i := (r / 2)%nat).
    assert (Hi : (i < h)%nat) by (apply Nat.Div0.div_lt_upper_bound; lia).
    destruct (Hdata n i Hn Hi) as [Hsin Hcos]. cbv zeta in Hsin, Hcos.
    pose proof (Nat.div_mod_eq r 2) as Hr2. fold i in Hr2.
    destruct (Nat.mod_bound_pos r 2 ltac:(lia) ltac:(lia)) as [_ Hlt].
    destruct (decide (r mod 2 = 0)%nat) as [He|Ho].
    + replace m with (n * (2 * h) + 2 * i)%nat by lia.
      rewrite Hsin. apply SIN_bound.
    + replace m with (n * (2 * h) + 2 * i + 1)%nat by lia.
      rewrite Hcos. apply COS_bound.
  - intros n Hn. cbv zeta.
    destruct (Hdata n 0%nat Hn Hh) as [Hsin Hcos]. cbv zeta in Hsin, Hcos.
    replace (n * (2 * h) + 2 * 0)%nat with (n * (2 * h))%nat in * by lia.
    rewrite Hsin, Hcos. change (IZR (2 * Z.of_nat 0)) with 0%R.
    unfold Rdiv at 2 4. rewrite Rmult_0_l, Rpower_10000_0.
    split; f_equal; field.
  - intros n i Hn Hi H0.
    destruct (Hdata n i Hn Hi) as [Hsin Hcos]. cbv zeta in Hsin, Hcos.
    rewrite Hsin, Hcos, H0. unfold Rdiv at 1 3. rewrite !Rmult_0_l.
    split; [apply sin_0|apply cos_0].
Qed.

(** X7.  Lines 211-236 for a value of [self.model] among ['add'] and
    ['concat']: the position encoded in column [c] of every row is [c]
    itself, so all the rows of the encoding are the same and it does not
    depend on the values of the input. *)
Theorem encode_column_positions (model : value) (inputs : tensor R)
    (b s h : nat) :
  str_is model "add" || str_is model "concat" = true →
  (0 < s)%nat → (0 < h)%nat →
  ∃ pos out,
    positions model (Z.of_nat b) (Z.of_nat s) inputs = Ok pos
    ∧ encode pos (Z.of_nat s) (VInt (2 * Z.of_nat h)) = Ok out
    ∧ shape out = [b; s; (2 * h)%nat]
    ∧ ∀ r c i, (r < b)%nat → (c < s)%nat → (i < h)%nat →
        let w := Rpower 10000
                   (IZR (2 * Z.of_nat i) / IZR (2 * Z.of_nat h)) in
        at_ 0%R (data out) ((r * s + c) * (2 * h) + 2 * i)
        = sin (INR c / w)
        ∧ at_ 0%R (data out) ((r * s + c) * (2 * h) + 2 * i + 1)
          = cos (INR c / w).
Proof.
  intros Hm Hs Hh.
  destruct (encode_interleaves
              (TInt (Tensor [b; s]
                       (map (fun n => Z.of_nat (n mod s)) (seq 0 (b * s)))))
              b s h eq_refl Hs Hh) as (out & Hout & Hshape & Hdata).
  eexists _, out. split; [exact (positions_arange model b s inputs Hm)|].
  split; [exact Hout|]. split; [exact Hshape|].
  intros r c i Hr Hc Hi. cbv zeta.
  assert (Hn : (r * s + c < b * s)%nat) by nia.
  destruct (Hdata (r * s + c)%nat i Hn Hi) as [Hsin Hcos].
  cbv zeta in Hsin, Hcos. rewrite Hsin, Hcos.
  replace (at_ 0%R
             (data (K_cast_floatx
                      (TInt (Tensor [b; s]
                         (map (fun n => Z.of_nat (n mod s))
                            (seq 0 (b * s)))))))
             (r * s + c)) with (INR c); [split; reflexivity|].
  cbn [K_cast_floatx tmap data]. rewrite map_map, at_map_seq by exact Hn.
  rewrite INR_IZR_INZ. do 2 f_equal.
  rewrite Nat.add_comm, Nat.Div0.mod_add. symmetry. apply Nat.mod_small. lia.
Qed.
End EncodingMore.

(** ** Adding and concatenating *)

Lemma ravel_unravel (sh : list nat) (n : nat) :
  ravel sh (unravel sh n) = (n mod numel sh)%nat.
Proof.
  induction sh as [|d rest IH].
  - cbn [ravel unravel]. rewrite numel_nil, Nat.mod_1_r. reflexivity.
  - cbn [ravel unravel]. rewrite IH, numel_cons.
    rewrite (Nat.mul_comm d (numel rest)), Nat.Div0.mod_mul_r. lia.
Qed.

Lemma zip_mod_unravel (sh : list nat) (n : nat) :
  zip_with Nat.modulo (unravel sh n) sh = unravel sh n.
Proof.
  induction sh as [|d rest IH]; [reflexivity|].
  cbn [unravel zip_with]. rewrite IH, Nat.Div0.mod_mod. reflexivity.
Qed.

Lemma broadcast_same (sh : list nat) : broadcast sh sh = Some sh.
Proof.
  unfold broadcast.
  assert (H : ∀ l, broadcast_rev l l = Some l).
  { induction l as [|x l IH]; simpl; [reflexivity|].
    rewrite IH. simpl. rewrite Nat.eqb_refl. reflexivity. }
  rewrite H. simpl. rewrite rev_involutive. reflexivity.
Qed.

(** The sum of two tensors of one shape is taken element by element. *)
Lemma K_add_same_shape {T} (zero : T) (add : T → T → T) (x y : tensor T) :
  shape x = shape y →
  K_add zero add x y
  = Ok (Tensor (shape x)
          (map (fun n => add (at_ zero (data x) n) (at_ zero (data y) n))
             (seq 0 (numel (shape x))))).
Proof.
  intros Hs. unfold K_add. rewrite <- Hs, broadcast_same.
  f_equal. f_equal. apply map_ext_in. intros n Hn%in_seq.
  unfold source_index. rewrite Nat.sub_diag, drop_0.
  rewrite zip_mod_unravel, ravel_unravel, Nat.mod_small by lia.
  reflexivity.
Qed.

Section CombineFacts.
Context {host : Layer}.
Import SineCosinePositionEmbedding.

(** X8.  Lines 237-241.  In mode ['add'] an encoding of the shape of the
    input is added to it element by element; in mode ['concat'] every row
    of the result is the row of the input followed by the row of the
    encoding; in mode ['expand'] the encoding is the result. *)
Theorem combine_by_mode (self : gmap string value)
    (inputs output : tensor R) :
  (self !! "mode" = Some (VStr "add") → shape output = shape inputs →
   combine self inputs output
   = Ok (Tensor (shape inputs)
           (map (fun n => (at_ 0 (data output) n + at_ 0 (data inputs) n)%R)
              (seq 0 (numel (shape inputs))))))
  ∧ (self !! "mode" = Some (VStr "concat") →
     ∀ pre a b, shape inputs = pre ++ [a] → shape output = pre ++ [b] →
       ∃ out, combine self inputs output = Ok out
              ∧ shape out = pre ++ [(a + b)%nat]
              ∧ ∀ r j, (r < numel pre)%nat →
                  ((j < a)%nat →
                   at_ 0%R (data out) (r * (a + b) + j)
                   = at_ 0%R (data inputs) (r * a + j))
                  ∧ ((j < b)%nat →
                     at_ 0%R (data out) (r * (a + b) + a + j)
                     = at_ 0%R (data output) (r * b + j)))
  ∧ (self !! "mode" = Some (VStr "expand") →
     combine self inputs output = Ok output).
Proof.
  unfold combine, getattr. split; [|split].
  - intros -> Hs. simpl. rewrite (K_add_same_shape _ _ _ _ Hs), Hs.
    reflexivity.
  - intros -> pre a b Hi Ho. simpl. unfold K_concatenate.
    rewrite Hi, Ho, !last_last, !py_init_app.
    rewrite bool_decide_eq_true_2 by reflexivity.
    destruct (pre ++ [a]) as [|x l] eqn:E1;
      [destruct pre; discriminate E1|].
    destruct (pre ++ [b]) as [|y l'] eqn:E2;
      [destruct pre; discriminate E2|].
    cbn [negb]. eexists. split; [reflexivity|]. split; [reflexivity|].
    intros r j Hr. cbn [data]. split; intros Hj.
    + rewrite at_map_seq by nia.
      replace ((r * (a + b) + j) / (a + b))%nat with r
        by (rewrite Nat.add_comm, Nat.div_add, Nat.div_small; lia).
      replace ((r * (a + b) + j) mod (a + b))%nat with j
        by (rewrite Nat.add_comm, Nat.Div0.mod_add, Nat.mod_small; lia).
      replace (j <? a)%nat with true by (symmetry; apply Nat.ltb_lt; lia).
      reflexivity.
    + rewrite at_map_seq by nia.
      replace (r * (a + b) + a + j)%nat with (a + j + r * (a + b))%nat by lia.
      rewrite Nat.div_add, Nat.Div0.mod_add by lia.
      rewrite Nat.div_small, Nat.mod_small by lia.
      replace (a + j <? a)%nat with false by (symmetry; apply Nat.ltb_ge; lia).
      simpl. f_equal. lia.
  - intros ->. reflexivity.
Qed.
End CombineFacts.

(** ** FeedForward: binding, errors and configuration *)

Section FeedForwardMore.
Context {T : Type} {host : Layer} {backend : Backend T}.
Import FeedForward.

Lemma add_weight_Ok_inv (sh : list Z) i r c (nm : string) (w : weight) :
  add_weight sh i r c nm = Ok w →
  w_name w = nm ∧ shape (w_value w) = map Z.to_nat sh
  ∧ w_regularizer w = r ∧ w_constraint w = c.
Proof.
  unfold add_weight. destruct (forallb _ _); simpl; [|discriminate].
  intros [= <-]. repeat split.
Qed.

(** What [__init__] leaves: no weight and no dropout layer, the flag
    [supports_masking] set. *)
Lemma init_unbound units a ki kr kc bi br bc ub dr kwargs (self : instance) :
  __init__ units a ki kr kc bi br bc ub dr kwargs = Ok self →
  W1 self = None ∧ W2 self = None ∧ b1 self = None ∧ b2 self = None
  ∧ dropout_layer self = None ∧ supports_masking self = true
  ∧ FeedForward.units self = units ∧ use_bias self = ub
  ∧ dropout_rate self = dr.
Proof.
  unfold __init__.
  repeat match goal with
    | |- context [?r ≫= _] =>
        destruct r; cbn [mbind result_bind]; [|discriminate]
    end.
  intros [= <-]. repeat split.
Qed.

(** X9.  The parameters of a layer that [__init__] has made and [build]
    has bound: [W1] and [W2], named after the layer, with the kernel's
    regulariser and constraint; with [use_bias] also [b1] of shape
    [(units,)] and [b2] of shape [(feature_dim,)], with those of the bias;
    without it no bias at all, two parameters fewer. *)
Theorem build_parameters units a ki kr kc bi br bc ub dr kwargs
    (self0 self : instance) (batch_shape : list (option Z)) (fd : Z)
    (nm : string) :
  __init__ units a ki kr kc bi br bc ub dr kwargs = Ok self0 →
  base self0 !! "name" = Some (VStr nm) →
  build self0 (batch_shape ++ [Some fd]) = Ok self →
  (∃ w1 w2,
     W1 self = Some w1 ∧ W2 self = Some w2
     ∧ w_name w1 = (nm ++ "_W1")%string ∧ w_name w2 = (nm ++ "_W2")%string
     ∧ w_regularizer w1 = kernel_regularizer self
     ∧ w_regularizer w2 = kernel_regularizer self
     ∧ w_constraint w1 = kernel_constraint self
     ∧ w_constraint w2 = kernel_constraint self)
  ∧ (ub = true →
     ∃ v1 v2,
       b1 self = Some v1 ∧ b2 self = Some v2
       ∧ w_name v1 = (nm ++ "_b1")%string ∧ w_name v2 = (nm ++ "_b2")%string
       ∧ shape (w_value v1) = [Z.to_nat units]
       ∧ shape (w_value v2) = [Z.to_nat fd]
       ∧ w_regularizer v1 = bias_regularizer self
       ∧ w_regularizer v2 = bias_regularizer self
       ∧ w_constraint v1 = bias_constraint self
       ∧ w_constraint v2 = bias_constraint self)
  ∧ (ub = false → b1 self = None ∧ b2 self = None).
Proof.
  intros Hinit Hn.
  destruct (init_unbound _ _ _ _ _ _ _ _ _ _ _ _ Hinit)
    as (_ & _ & E1 & E2 & _ & _ & Eu & Eb & _).
  unfold build. rewrite py_index_last, bind_Ok. cbn [py_int].
  rewrite bind_Ok, (name_Ok _ _ Hn), bind_Ok, Eb, E1, E2, Eu.
  destruct (add_weight [fd; units] _ _ _ _) as [w1|] eqn:A1; [|discriminate].
  rewrite bind_Ok.
  destruct (add_weight [units; fd] _ _ _ _) as [w2|] eqn:A2; [|discriminate].
  rewrite bind_Ok.
  apply add_weight_Ok_inv in A1 as (N1 & _ & R1 & C1).
  apply add_weight_Ok_inv in A2 as (N2 & _ & R2 & C2).
  destruct ub.
  - destruct (add_weight [units] _ _ _ _) as [v1|] eqn:A3; [|discriminate].
    rewrite bind_Ok.
    destruct (add_weight [fd] _ _ _ _) as [v2|] eqn:A4; [|discriminate].
    rewrite !bind_Ok. intros [= <-]. cbn.
    apply add_weight_Ok_inv in A3 as (N3 & S3 & R3 & C3).
    apply add_weight_Ok_inv in A4 as (N4 & S4 & R4 & C4).
    split; [exists w1, w2; repeat split; assumption|].
    split; [|discriminate].
    intros _. exists v1, v2. repeat split; assumption.
  - rewrite !bind_Ok. intros [= <-]. cbn.
    split; [exists w1, w2; repeat split; assumption|].
    split; [discriminate|]. intros _. split; reflexivity.
Qed.

(** X10.  [build] reads the last entry of the static shape and turns it
    into an integer: the empty shape raises [IndexError], a shape whose
    last dimension is unknown raises [TypeError]; no weight is made. *)
Theorem build_needs_feature_dim (self : instance) :
  build self [] = Raise IndexError
  ∧ ∀ batch_shape, build self (batch_shape ++ [None]) = Raise TypeError.
Proof.
  split; [reflexivity|]. intros batch_shape. unfold build.
  rewrite py_index_last. reflexivity.
Qed.

(** X11.  A layer that has not been bound cannot be evaluated: on what
    [__init__] returns, and so on what is constructed from an exported
    configuration, [call] raises [AttributeError] for [W1] on every
    input. *)
Theorem call_before_build :
  (∀ units a ki kr kc bi br bc ub dr kwargs (self : instance),
     __init__ units a ki kr kc bi br bc ub dr kwargs = Ok self →
     ∀ inputs mask training phase,
       call self inputs mask training phase = Raise (AttributeError "W1"))
  ∧ (∀ config (self : instance),
       from_config config = Ok self →
       W1 self = None ∧ W2 self = None ∧ b1 self = None ∧ b2 self = None
       ∧ ∀ inputs mask training phase,
           call self inputs mask training phase
           = Raise (AttributeError "W1")).
Proof.
  assert (Hcall : ∀ self : instance, W1 self = None →
            ∀ inputs mask training phase,
              call self inputs mask training phase
              = Raise (AttributeError "W1")).
  { intros self H1 inputs mask training phase. unfold call.
    rewrite H1. reflexivity. }
  split.
  - intros units a ki kr kc bi br bc ub dr kwargs self Hinit.
    apply Hcall. apply (init_unbound _ _ _ _ _ _ _ _ _ _ _ _ Hinit).
  - intros config self. unfold from_config.
    repeat match goal with
      | |- context [?r ≫= _] =>
          destruct r; cbn [mbind result_bind]; [|discriminate]
      end.
    intros Hinit.
    destruct (init_unbound _ _ _ _ _ _ _ _ _ _ _ _ Hinit)
      as (E1 & E2 & E3 & E4 & _).
    repeat (split; [assumption|]). apply Hcall, E1.
Qed.

(** X12.  [call] itself checks no shape: on a bound layer an input with
    fewer than two axes, or whose last axis is not the feature dimension
    the layer was bound to, is rejected by the host in the first product,
    with its [TensorError]. *)
Theorem call_rejects_other_widths (self0 self : instance)
    (batch_shape : list (option Z)) (fd : Z) (inputs : tensor T)
    mask training phase :
  build self0 (batch_shape ++ [Some fd]) = Ok self →
  (length (shape inputs) < 2)%nat
  ∨ List.last (shape inputs) 0%nat ≠ Z.to_nat fd →
  call self inputs mask training phase = Raise TensorError.
Proof.
  intros Hbuild Hbad.
  assert (H1 : ∃ w1, W1 self = Some w1
                     ∧ shape (w_value w1)
                       = [Z.to_nat fd; Z.to_nat (units self0)]).
  { revert Hbuild. unfold build. rewrite py_index_last, bind_Ok.
    cbn [py_int]. rewrite bind_Ok.
    destruct (name self0) as [nm|]; [|discriminate]. rewrite bind_Ok.
    destruct (add_weight [fd; units self0] _ _ _ _) as [w1|] eqn:A1;
      [|discriminate].
    rewrite bind_Ok.
    repeat match goal with
      | |- context [?r ≫= _] =>
          destruct r; cbn [mbind result_bind]; [|discriminate]
      end.
    intros [= <-]. exists w1. split; [reflexivity|].
    apply add_weight_Ok_inv in A1 as (_ & S1 & _). exact S1. }
  destruct H1 as (w1 & H1 & S1).
  unfold call. rewrite H1. cbn [attr]. rewrite bind_Ok.
  replace (K_dot zero add mul inputs (w_value w1)) with
    (@Raise (tensor T) TensorError); [reflexivity|].
  unfold K_dot. rewrite S1. change (length [Z.to_nat fd; Z.to_nat (units self0)]) with 2%nat.
  cbn [Nat.ltb Nat.leb orb Nat.eqb Nat.sub nth].
  destruct (length (shape inputs)) as [|[|n]] eqn:El; try reflexivity.
  destruct Hbad as [Hlen|Hlast]; [lia|].
  cbn [Nat.ltb Nat.leb andb orb].
  replace (List.last (shape inputs) 0 =? Z.to_nat fd)%nat with false
    by (symmetry; apply Nat.eqb_neq; exact Hlast).
  reflexivity.
Qed.

(** X13.  Only a rate above zero engages dropout: with a rate of zero or
    below, [build] makes no dropout layer, [call] has no dropout step, and
    its result does not depend on the training flag or on the phase of the
    host. *)
Theorem nonpositive_rate_skips_dropout units a ki kr kc bi br bc ub dr
    kwargs (self0 self : instance) (input_shape : list (option Z)) :
  (dr <= 0)%Q →
  __init__ units a ki kr kc bi br bc ub dr kwargs = Ok self0 →
  build self0 input_shape = Ok self →
  dropout_layer self = None
  ∧ ¬ In DropoutStep (steps self)
  ∧ ∀ inputs mask mask' training training' phase phase',
      call self inputs mask training phase
      = call self inputs mask' training' phase'.
Proof.
  intros Hdr Hinit Hbuild.
  destruct (init_unbound _ _ _ _ _ _ _ _ _ _ _ _ Hinit)
    as (_ & _ & _ & _ & Hl & _ & _ & _ & Hr).
  assert (Hpos : positive dr = false).
  { unfold positive. apply negb_false_iff, Qle_bool_iff. exact Hdr. }
  assert (Hself : dropout_rate self = dr ∧ dropout_layer self = None).
  { revert Hbuild. unfold build.
    repeat match goal with
      | |- context [?r ≫= _] =>
          destruct r; cbn [mbind result_bind]; [|discriminate]
      end.
    intros [= <-]. cbn. rewrite Hr, Hpos, Hl. split; reflexivity. }
  destruct Hself as [Hr' Hl']. split; [exact Hl'|]. split.
  - unfold steps. rewrite filter_In. intros [_ He]. simpl in He.
    rewrite Hr', Hpos in He. discriminate.
  - intros. unfold call. rewrite Hr', Hpos. reflexivity.
Qed.

Lemma get_config_parameter (self self' : instance) (k : string) :
  k ∈ parameters → configuration self' = configuration self →
  get_config self' !! k = get_config self !! k.
Proof.
  intros Hk Hcfg.
  destruct (get_config_entries self)
    as (L1 & L2 & L3 & L4 & L5 & L6 & L7 & L8 & L9 & L10).
  destruct (get_config_entries self')
    as (M1 & M2 & M3 & M4 & M5 & M6 & M7 & M8 & M9 & M10).
  cbv zeta in *. unfold configuration in Hcfg.
  injection Hcfg as Fu Fa Fki Fkr Fkc Fbi Fbr Fbc Fub Fdr.
  unfold parameters in Hk.
  repeat (apply elem_of_cons in Hk as [->|Hk]).
  11: exact (False_ind _ (proj1 (elem_of_nil k) Hk)).
  - rewrite M1, L1, Fu. reflexivity.
  - rewrite M2, L2, Fa. reflexivity.
  - rewrite M3, L3, Fki. reflexivity.
  - rewrite M4, L4, Fkr. reflexivity.
  - rewrite M5, L5, Fkc. reflexivity.
  - rewrite M6, L6, Fbi. reflexivity.
  - rewrite M7, L7, Fbr. reflexivity.
  - rewrite M8, L8, Fbc. reflexivity.
  - rewrite M9, L9, Fub. reflexivity.
  - rewrite M10, L10, Fdr. reflexivity.
Qed.

(** X14.  How [get_config] merges: under the ten names of the
    constructor's parameters the mapping holds the layer's values, which
    depend on its configuration alone and hide whatever the base class
    exports under those names; every other entry is the base class's. *)
Theorem get_config_merge (self : instance) (k : string) :
  (k ∈ parameters →
     is_Some (get_config self !! k)
     ∧ ∀ self' : instance,
         configuration self' = configuration self →
         get_config self' !! k = get_config self !! k)
  ∧ (k ∉ parameters →
     get_config self !! k = Layer_get_config (base self) !! k).
Proof.
  split.
  - intros Hk. split; [|intros self' Hc; apply get_config_parameter; auto].
    destruct (get_config_entries self)
      as (L1 & L2 & L3 & L4 & L5 & L6 & L7 & L8 & L9 & L10).
    cbv zeta in *. unfold parameters in Hk.
    repeat (apply elem_of_cons in Hk as [->|Hk]).
    11: exact (False_ind _ (proj1 (elem_of_nil k) Hk)).
    all: eexists; eassumption.
  - intros Hk. unfold get_config, dict_update.
    apply lookup_union_r. unfold parameters in Hk.
    repeat (rewrite lookup_insert_ne by set_solver). apply lookup_empty.
Qed.

(** X15.  Binding does not touch the configuration: after [build] the
    layer exports the same ten entries as before, so a layer can be saved
    before or after it is bound. *)
Theorem build_keeps_config (self self' : instance)
    (input_shape : list (option Z)) :
  build self input_shape = Ok self' →
  configuration self' = configuration self
  ∧ ∀ k, k ∈ parameters → get_config self' !! k = get_config self !! k.
Proof.
  intros Hbuild. destruct (build_bound _ _ _ Hbuild) as [_ Hcfg].
  split; [exact Hcfg|]. intros k Hk. apply get_config_parameter; auto.
Qed.
End FeedForwardMore.

(** ** The masking flag *)

(** X5.  The two constructors set [supports_masking] on different sides of
    the base initialiser.  [FeedForward] sets it after, so every layer it
    makes has the flag.  The position layer sets it before, so the base
    initialiser has the last word: the flag is there when the base
    initialiser leaves that attribute alone, and the layer has the value
    [v] when the base initialiser assigns [v] to it. *)
Theorem supports_masking_order :
  (∀ (host : Layer) (T : Type) (backend : Backend T)
     units a ki kr kc bi br bc ub dr kwargs (self : FeedForward.instance),
     FeedForward.__init__ units a ki kr kc bi br bc ub dr kwargs = Ok self →
     FeedForward.supports_masking self = true)
  ∧ (∀ (host : Layer) mode output_dim kwargs (self : gmap string value),
       Layer_respects ["supports_masking"] →
       SineCosinePositionEmbedding.new mode output_dim kwargs = Ok self →
       self !! "supports_masking" = Some (VBool true))
  ∧ (∀ (host : Layer) (v : value) mode output_dim kwargs
       (self : gmap string value),
       (∀ kw attrs attrs', Layer_init kw attrs = Ok attrs' →
          attrs' !! "supports_masking" = Some v) →
       SineCosinePositionEmbedding.new mode output_dim kwargs = Ok self →
       self !! "supports_masking" = Some v).
Proof.
  split; [|split].
  - intros host T backend units a ki kr kc bi br bc ub dr kwargs self Hinit.
    apply (init_unbound _ _ _ _ _ _ _ _ _ _ _ _ Hinit).
  - intros host mode output_dim kwargs self Hh Hnew.
    exact (supports_masking_kept _ _ _ _ Hh Hnew).
  - intros host v mode output_dim kwargs self Hbase Hnew.
    apply new_Ok in Hnew as [_ Hinit].
    exact (Hbase _ _ _ Hinit).
Qed.

(** A base initialiser that assigns the flag: [MaskingHost.layer v]. *)
Lemma MaskingHost_assigns (v : bool) kw attrs attrs' :
  Layer_init (Layer := MaskingHost.layer v) kw attrs = Ok attrs' →
  attrs' !! "supports_masking" = Some (VBool v).
Proof.
  unfold MaskingHost.layer. cbn [Layer_init].
  destruct (Layer_init (Layer := Host.layer) kw attrs) as [a|e];
    cbn [fmap result_fmap]; [|discriminate].
  intros [= <-]. by simplify_map_eq.
Qed.

Lemma supports_masking_order_witness :
  (∃ self : gmap string value,
     SineCosinePositionEmbedding.new (host := MaskingHost.layer false)
       (Some "add") None ∅ = Ok self
     ∧ self !! "supports_masking" = Some (VBool false))
  ∧ (∃ self : gmap string value,
       SineCosinePositionEmbedding.new (host := MaskingHost.layer true)
         (Some "expand") (Some 4%Z) ∅ = Ok self
       ∧ self !! "supports_masking" = Some (VBool true))
  ∧ Host.position_layer (Some "add") None !! "supports_masking"
    = Some (VBool true).
Proof.
  destruct supports_masking_order as (_ & Hkept & Hbase).
  split; [|split].
  - eexists. split; [vm_compute; reflexivity|].
    apply (Hbase (MaskingHost.layer false) (VBool false) (Some "add") None ∅);
      [apply MaskingHost_assigns|vm_compute; reflexivity].
  - eexists. split; [vm_compute; reflexivity|].
    apply (Hbase (MaskingHost.layer true) (VBool true) (Some "expand")
             (Some 4%Z) ∅);
      [apply MaskingHost_assigns|vm_compute; reflexivity].
  - apply (Hkept Host.layer (Some "add") None ∅);
      [apply Host_respects; set_solver|vm_compute; reflexivity].
Defined.

(** ** gelu, continued *)

Lemma tanh_bounds (y : R) : (-1 < tanh y < 1)%R.
Proof.
  unfold tanh, sinh, cosh.
  pose proof (exp_pos y) as Ha. pose proof (exp_pos (- y)) as Hb.
  set (a := exp y) in *. set (b := exp (- y)) in *.
  replace ((a - b) / 2 / ((a + b) / 2))%R with ((a - b) / (a + b))%R
    by (field; lra).
  split.
  - apply Rmult_lt_reg_r with (a + b)%R; [lra|].
    replace ((a - b) / (a + b) * (a + b))%R with (a - b)%R by (field; lra).
    lra.
  - apply Rmult_lt_reg_r with (a + b)%R; [lra|].
    replace ((a - b) / (a + b) * (a + b))%R with (a - b)%R by (field; lra).
    lra.
Qed.

(** X16.  [gelu] keeps the sign and does not grow: for [x] from zero up
    it lies between 0 and [x], for [x] from zero down between [x] and 0.
    The bounds are the weak ones, which are also met where the hyperbolic
    tangent of floating-point numbers reaches 1 and -1. *)
Theorem gelu_between_zero_and_identity (x : R) :
  ((0 <= x → 0 <= gelu x <= x) ∧ (x <= 0 → x <= gelu x <= 0))%R.
Proof.
  unfold gelu, K_tanh.
  set (t := tanh _). assert (Ht : (-1 < t < 1)%R) by apply tanh_bounds.
  replace (1.0)%R with 1%R by lra.
  split; intros Hx; split; nra.
Qed.

(** ** FeedForward: what [call] computes *)

Section FeedForwardValues.
Context {T : Type} {host : Layer} {backend : Backend T}.
Import FeedForward.

Lemma sum_upto_ext_lt (k : nat) (f g : nat → T) :
  (∀ t, (t < k)%nat → f t = g t) →
  sum_upto zero add k f = sum_upto zero add k g.
Proof.
  intros Hfg. unfold sum_upto.
  assert (H : ∀ l : list nat, (∀ t, In t l → (t < k)%nat) →
            foldr (fun t acc => add (f t) acc) zero l
            = foldr (fun t acc => add (g t) acc) zero l).
  { induction l as [|t l IH]; intros Hl; simpl; [reflexivity|].
    rewrite Hfg by (apply Hl; left; reflexivity).
    rewrite IH by (intros u Hu; apply Hl; right; exact Hu). reflexivity. }
  apply H. intros t Ht%in_seq. lia.
Qed.

Lemma row_index (r j n : nat) :
  (j < n)%nat → ((r * n + j) / n = r ∧ (r * n + j) mod n = j)%nat.
Proof.
  intros Hj. split.
  - rewrite Nat.add_comm, Nat.div_add, Nat.div_small by lia. reflexivity.
  - rewrite Nat.add_comm, Nat.Div0.mod_add. apply Nat.mod_small. exact Hj.
Qed.

Lemma at_map (f : T → T) (l : list T) (i : nat) :
  (i < length l)%nat → at_ zero (map f l) i = f (at_ zero l i).
Proof.
  intros Hi. unfold at_.
  rewrite (nth_indep _ zero (f zero)) by (rewrite length_map; exact Hi).
  apply map_nth.
Qed.

(** The entries of a dense map, row by row. *)
Lemma Dense_rows (w : tensor T) (b : option (tensor T)) (x : tensor T)
    (batch : list nat) (k n : nat) :
  batch ≠ [] → shape x = batch ++ [k] → shape w = [k; n] →
  (∀ v, b = Some v → shape v = [n]) →
  ∃ out, Dense w b x = Ok out ∧ shape out = batch ++ [n]
    ∧ length (data out) = (numel batch * n)%nat
    ∧ ∀ r j, (r < numel batch)%nat → (j < n)%nat →
        at_ zero (data out) (r * n + j)
        = plus_bias b j
            (sum_upto zero add k (fun t =>
               mul (at_ zero (data x) (r * k + t))
                   (at_ zero (data w) (t * n + j)))).
Proof.
  intros Hb Hx Hw Hv. unfold Dense.
  rewrite (K_dot_matrix _ _ _ _ _ batch k n Hx Hb Hw), bind_Ok.
  assert (Hdot : ∀ r j, (r < numel batch)%nat → (j < n)%nat →
            at_ zero
              (map (fun m => sum_upto zero add k (fun t =>
                      mul (at_ zero (data x) (m / n * k + t))
                          (at_ zero (data w) (t * n + m mod n))))
                 (seq 0 (numel batch * n))) (r * n + j)
            = sum_upto zero add k (fun t =>
                mul (at_ zero (data x) (r * k + t))
                    (at_ zero (data w) (t * n + j)))).
  { intros r j Hr Hj. rewrite at_map_seq by nia.
    destruct (row_index r j n Hj) as [-> ->]. reflexivity. }
  destruct b as [v|].
  - unfold K_bias_add. rewrite (Hv v eq_refl). cbn [shape data].
    replace (length (batch ++ [n]) <? 2)%nat with false.
    2:{ symmetry. apply Nat.ltb_ge. rewrite length_app. simpl.
        destruct batch; [done|simpl; lia]. }
    rewrite last_last, Nat.eqb_refl. cbn [negb].
    eexists. split; [reflexivity|]. split; [reflexivity|].
    cbn [data]. rewrite numel_app, numel_cons, numel_nil, Nat.mul_1_r.
    split; [rewrite length_map, length_seq; reflexivity|].
    intros r j Hr Hj. cbn [plus_bias].
    rewrite at_map_seq by nia. rewrite (Hdot r j Hr Hj).
    destruct (row_index r j n Hj) as [_ ->]. reflexivity.
  - eexists. split; [reflexivity|]. split; [reflexivity|].
    cbn [data]. split; [rewrite length_map, length_seq; reflexivity|].
    intros r j Hr Hj. cbn [plus_bias]. exact (Hdot r j Hr Hj).
Qed.

(** The entries of the output of a bound layer without dropout, whose
    activation acts entry by entry. *)
Lemma call_rows (self0 self : instance)
    (batch_shape : list (option Z)) (fd : Z) (nm : string) (act : T → T)
    (inputs : tensor T) (batch : list nat) mask training phase :
  base self0 !! "name" = Some (VStr nm) →
  (0 ≤ units self0)%Z → (0 ≤ fd)%Z →
  build self0 (batch_shape ++ [Some fd]) = Ok self →
  elementwise (activation self) act →
  positive (dropout_rate self) = false →
  batch ≠ [] → shape inputs = batch ++ [Z.to_nat fd] →
  ∃ out w1 w2,
    call self inputs mask training phase = Ok out
    ∧ W1 self = Some w1 ∧ W2 self = Some w2
    ∧ ∀ r j, (r < numel batch)%nat → (j < Z.to_nat fd)%nat →
        at_ zero (data out) (r * Z.to_nat fd + j)
        = plus_bias (bias_of self (b2 self)) j
            (sum_upto zero add (Z.to_nat (units self0)) (fun u =>
               mul (act
                      (plus_bias (bias_of self (b1 self)) u
                         (sum_upto zero add (Z.to_nat fd) (fun t =>
                            mul (at_ zero (data inputs)
                                   (r * Z.to_nat fd + t))
                                (at_ zero (data (w_value w1))
                                   (t * Z.to_nat (units self0) + u))))))
                   (at_ zero (data (w_value w2)) (u * Z.to_nat fd + j)))).
Proof.
  intros Hn Hu Hf Hbuild Ha Hp Hbatch Hin.
  destruct (build_Ok self0 batch_shape fd nm Hn Hu Hf)
    as (self' & w1 & w2 & Hbuild' & H1 & Hs1 & H2 & Hs2 & Hv1 & Hv2).
  rewrite Hbuild in Hbuild'. injection Hbuild' as <-.
  destruct (build_bound _ _ _ Hbuild) as [Hbound _].
  rewrite (call_spec_forward self w1 w2 _ _ _ _ Hbound H1 H2).
  unfold spec_forward, Dropout_of. rewrite Hp.
  destruct (Dense_rows (w_value w1) (bias_of self (b1 self)) inputs batch
              _ _ Hbatch Hin Hs1 Hv1) as (h & -> & Hh & Hlen & Hrows1).
  rewrite bind_Ok.
  assert (Hh' : shape (Activation_of (activation self) h)
                = batch ++ [Z.to_nat (units self0)])
    by (rewrite Activation_of_shape; exact Hh).
  destruct (Dense_rows (w_value w2) (bias_of self (b2 self))
              (Activation_of (activation self) h) batch
              _ _ Hbatch Hh' Hs2 Hv2) as (out & -> & _ & _ & Hrows2).
  exists out, w1, w2. repeat (split; [reflexivity || assumption|]).
  intros r j Hr Hj. rewrite (Hrows2 r j Hr Hj). f_equal.
  apply sum_upto_ext_lt. intros u Hlt. f_equal.
  rewrite (Ha h), at_map by (rewrite Hlen; nia).
  f_equal. apply Hrows1; assumption.
Qed.

(** X17.  The function that a bound layer without dropout computes, when
    its activation acts entry by entry as [act]: entry [j] of row [r] of
    the output is
    [sum_u act (sum_t x[r,t] W1[t,u] + b1[u]) W2[u,j] + b2[j]], the biases
    being there when [use_bias] is set. *)
Theorem call_closed_form (self0 self : instance)
    (batch_shape : list (option Z)) (fd : Z) (nm : string) (act : T → T)
    (inputs : tensor T) (batch : list nat) mask training phase :
  base self0 !! "name" = Some (VStr nm) →
  (0 ≤ units self0)%Z → (0 ≤ fd)%Z →
  build self0 (batch_shape ++ [Some fd]) = Ok self →
  elementwise (activation self) act →
  positive (dropout_rate self) = false →
  batch ≠ [] → shape inputs = batch ++ [Z.to_nat fd] →
  ∃ out w1 w2,
    call self inputs mask training phase = Ok out
    ∧ W1 self = Some w1 ∧ W2 self = Some w2
    ∧ ∀ r j, (r < numel batch)%nat → (j < Z.to_nat fd)%nat →
        at_ zero (data out) (r * Z.to_nat fd + j)
        = plus_bias (bias_of self (b2 self)) j
            (sum_upto zero add (Z.to_nat (units self0)) (fun u =>
               mul (act
                      (plus_bias (bias_of self (b1 self)) u
                         (sum_upto zero add (Z.to_nat fd) (fun t =>
                            mul (at_ zero (data inputs)
                                   (r * Z.to_nat fd + t))
                                (at_ zero (data (w_value w1))
                                   (t * Z.to_nat (units self0) + u))))))
                   (at_ zero (data (w_value w2)) (u * Z.to_nat fd + j)))).
Proof.
  intros Hn Hu Hf Hbuild Ha Hp Hbatch Hin.
  exact (call_rows self0 self batch_shape fd nm act inputs batch mask
           training phase Hn Hu Hf Hbuild Ha Hp Hbatch Hin).
Qed.

(** X18.  Such a layer works position by position: if two inputs of one
    shape agree on a row, so do the outputs. *)
Theorem call_position_wise (self0 self : instance)
    (batch_shape : list (option Z)) (fd : Z) (nm : string) (act : T → T)
    (x x' : tensor T) (batch : list nat) (r : nat) mask training phase :
  base self0 !! "name" = Some (VStr nm) →
  (0 ≤ units self0)%Z → (0 ≤ fd)%Z →
  build self0 (batch_shape ++ [Some fd]) = Ok self →
  elementwise (activation self) act →
  positive (dropout_rate self) = false →
  batch ≠ [] →
  shape x = batch ++ [Z.to_nat fd] → shape x' = batch ++ [Z.to_nat fd] →
  (r < numel batch)%nat →
  (∀ t, (t < Z.to_nat fd)%nat →
     at_ zero (data x) (r * Z.to_nat fd + t)
     = at_ zero (data x') (r * Z.to_nat fd + t)) →
  ∃ out out',
    call self x mask training phase = Ok out
    ∧ call self x' mask training phase = Ok out'
    ∧ ∀ j, (j < Z.to_nat fd)%nat →
        at_ zero (data out) (r * Z.to_nat fd + j)
        = at_ zero (data out') (r * Z.to_nat fd + j).
Proof.
  intros Hn Hu Hf Hbuild Ha Hp Hbatch Hx Hx' Hr Hrow.
  destruct (call_rows self0 self batch_shape fd nm act x batch
              mask training phase Hn Hu Hf Hbuild Ha Hp Hbatch Hx)
    as (out & w1 & w2 & Hout & H1 & H2 & Hval).
  destruct (call_rows self0 self batch_shape fd nm act x' batch
              mask training phase Hn Hu Hf Hbuild Ha Hp Hbatch Hx')
    as (out' & w1' & w2' & Hout' & H1' & H2' & Hval').
  rewrite H1 in H1'. injection H1' as <-.
  rewrite H2 in H2'. injection H2' as <-.
  exists out, out'. split; [exact Hout|]. split; [exact Hout'|].
  intros j Hj. rewrite (Hval r j Hr Hj), (Hval' r j Hr Hj). f_equal.
  apply sum_upto_ext_lt. intros u Hlt. f_equal. f_equal. f_equal.
  apply sum_upto_ext_lt. intros t Ht. f_equal. apply Hrow. exact Ht.
Qed.
End FeedForwardValues.

(** ** The further properties at concrete inputs *)

Section MoreOnHost.
#[local] Existing Instance Host.layer.
#[local] Existing Instance Host.backend.

Lemma Host_build_feed_forward_negative :
  FeedForward.build (Host.feed_forward (-1 # 2)) [None; Some 4%Z]
  = Ok (Host.built (-1 # 2)).
Proof. vm_compute. reflexivity. Qed.

Lemma even_width_accepted_witness :
  ∃ self, SineCosinePositionEmbedding.new (Some "expand") (Some (-2)%Z) ∅
          = Ok self
          ∧ self !! "output_dim" = Some (VInt (-2))
          ∧ self !! "mode" = Some (VStr "expand").
Proof.
  exact (even_width_accepted (Some "expand") (-2)%Z ∅
           (Host_respects ["mode"; "output_dim"]
              ltac:(set_solver) ltac:(set_solver))
           Host_accepts_nothing ltac:(set_solver) eq_refl).
Defined.

Lemma compute_output_shape_edges_witness :
  SineCosinePositionEmbedding.compute_output_shape
    (Host.position_layer (Some "concat") (Some 6%Z)) []
  = Raise IndexError
  ∧ SineCosinePositionEmbedding.compute_output_shape
      (Host.position_layer (Some "concat") (Some 6%Z)) [Some 2%Z; None]
    = Raise TypeError.
Proof.
  destruct (compute_output_shape_edges (Some "concat") (Some 6%Z) ∅
              (Host.position_layer (Some "concat") (Some 6%Z))
              (Host_respects ["mode"; "output_dim"]
                 ltac:(set_solver) ltac:(set_solver))
              Host_new_concat6) as [Hc _].
  destruct (Hc eq_refl) as [He Hn].
  split; [exact He|]. exact (Hn [Some 2%Z]).
Defined.

Lemma encode_bounded_and_origin_witness :
  ∃ out,
    SineCosinePositionEmbedding.encode
      (TFloat (Tensor [1; 3]%nat [0; 1; 10]%R)) 3 (VInt 4) = Ok out
    ∧ at_ 0%R (data out) 0 = 0%R
    ∧ at_ 0%R (data out) 1 = 1%R
    ∧ at_ 0%R (data out) 4 = sin 1
    ∧ at_ 0%R (data out) 5 = cos 1
    ∧ (-1 <= at_ 0 (data out) 11 <= 1)%R.
Proof.
  destruct (encode_bounded_and_origin (TFloat (Tensor [1; 3]%nat [0; 1; 10]%R))
              1 3 2 eq_refl ltac:(lia) ltac:(lia))
    as (out & Hout & Hb & Hfirst & Hzero).
  exists out. split; [exact Hout|].
  destruct (Hzero 0%nat 0%nat ltac:(lia) ltac:(lia) eq_refl) as [H0 H1].
  destruct (Hfirst 1%nat ltac:(lia)) as [H4 H5].
  split; [exact H0|]. split; [exact H1|]. split; [exact H4|].
  split; [exact H5|]. apply (Hb 11%nat). lia.
Defined.

Lemma encode_column_positions_witness :
  ∃ pos out,
    SineCosinePositionEmbedding.positions (VStr "concat") 2 3
      (Tensor [2; 3; 4]%nat (repeat 1%R 24)) = Ok pos
    ∧ SineCosinePositionEmbedding.encode pos 3 (VInt 4) = Ok out
    ∧ shape out = [2; 3; 4]%nat
    ∧ at_ 0%R (data out) 20 = sin (INR 2 / Rpower 10000 (IZR 0 / IZR 4)).
Proof.
  destruct (encode_column_positions (VStr "concat")
              (Tensor [2; 3; 4]%nat (repeat 1%R 24)) 2 3 2 eq_refl
              ltac:(lia) ltac:(lia)) as (pos & out & Hp & Ho & Hs & Hd).
  exists pos, out. split; [exact Hp|]. split; [exact Ho|].
  split; [exact Hs|].
  exact (proj1 (Hd 1%nat 2%nat 0%nat ltac:(lia) ltac:(lia) ltac:(lia))).
Defined.

Lemma build_parameters_witness :
  ∃ w1 w2 v1 v2,
    FeedForward.W1 (Host.built 0) = Some w1
    ∧ FeedForward.W2 (Host.built 0) = Some w2
    ∧ FeedForward.b1 (Host.built 0) = Some v1
    ∧ FeedForward.b2 (Host.built 0) = Some v2
    ∧ FeedForward.w_name w1 = "layer_W1"
    ∧ FeedForward.w_name v2 = "layer_b2"
    ∧ shape (FeedForward.w_value v1) = [3%nat]
    ∧ shape (FeedForward.w_value v2) = [4%nat].
Proof.
  destruct (build_parameters 3 (VStr "relu") (VStr "glorot_normal") VNone
              VNone (VStr "zeros") VNone VNone true 0 ∅
              (Host.feed_forward 0) (Host.built 0) [None] 4%Z "layer"
              (Host_init_feed_forward 0) eq_refl Host_build_feed_forward_0)
    as ((w1 & w2 & H1 & H2 & N1 & _) & Hb & _).
  destruct (Hb eq_refl) as (v1 & v2 & B1 & B2 & _ & N4 & S1 & S2 & _).
  exists w1, w2, v1, v2. repeat split; assumption.
Defined.

Lemma call_rejects_other_widths_witness :
  FeedForward.call (Host.built 0) (Tensor [1; 5]%nat [1; 2; 3; 4; 5]%Z) None
    None false
  = Raise TensorError
  ∧ FeedForward.call (Host.built 0) (Tensor [4]%nat [1; 2; 3; 4]%Z) None
      None false
    = Raise TensorError.
Proof.
  split.
  - apply (call_rejects_other_widths (Host.feed_forward 0) (Host.built 0)
             [None] 4%Z _ None None false Host_build_feed_forward_0).
    right. simpl. lia.
  - apply (call_rejects_other_widths (Host.feed_forward 0) (Host.built 0)
             [None] 4%Z _ None None false Host_build_feed_forward_0).
    left. simpl. lia.
Defined.

Lemma nonpositive_rate_skips_dropout_witness :
  FeedForward.dropout_layer (Host.built (-1 # 2)) = None
  ∧ FeedForward.call (Host.built (-1 # 2))
      (Tensor [1; 4]%nat [1; 2; 3; 4]%Z) None (Some true) true
    = FeedForward.call (Host.built (-1 # 2))
        (Tensor [1; 4]%nat [1; 2; 3; 4]%Z) None (Some false) false.
Proof.
  destruct (nonpositive_rate_skips_dropout 3 (VStr "relu")
              (VStr "glorot_normal") VNone VNone (VStr "zeros") VNone VNone
              true (-1 # 2) ∅ (Host.feed_forward (-1 # 2))
              (Host.built (-1 # 2)) [None; Some 4%Z]
              ltac:(discriminate) (Host_init_feed_forward (-1 # 2))
              Host_build_feed_forward_negative) as (Hl & _ & Hcall).
  split; [exact Hl|]. apply Hcall.
Defined.

Lemma build_keeps_config_witness :
  FeedForward.configuration (Host.built (1 # 2))
  = FeedForward.configuration (Host.feed_forward (1 # 2))
  ∧ FeedForward.get_config (Host.built (1 # 2)) !! "dropout_rate"
    = FeedForward.get_config (Host.feed_forward (1 # 2)) !! "dropout_rate".
Proof.
  destruct (build_keeps_config (Host.feed_forward (1 # 2))
              (Host.built (1 # 2)) [None; Some 4%Z]
              Host_build_feed_forward_half) as [Hc Hk].
  split; [exact Hc|]. apply Hk. unfold FeedForward.parameters. set_solver.
Defined.
End MoreOnHost.

(** ** The configuration of a position layer *)

Section PositionConfig.
Context {host : Layer}.
Import SineCosinePositionEmbedding.

(** X19.  [get_config] of a position layer that the constructor has made
    succeeds; it holds the layer's [mode] and [output_dim], which hide what
    the base class exports under those two names, and every other entry is
    the base class's. *)
Theorem position_config_merge mode output_dim kwargs
    (self : gmap string value) :
  Layer_respects ["mode"; "output_dim"] →
  new mode output_dim kwargs = Ok self →
  ∃ config,
    get_config self = Ok config
    ∧ config !! "mode" = Some (of_opt_str mode)
    ∧ config !! "output_dim" = Some (of_opt_int output_dim)
    ∧ ∀ k, k ∉ ["mode"; "output_dim"] →
        config !! k = Layer_get_config self !! k.
Proof.
  intros Hh Hnew.
  pose proof (new_attr _ _ _ _ _ "mode" Hh ltac:(set_solver) Hnew) as Hm.
  pose proof (new_attr _ _ _ _ _ "output_dim" Hh ltac:(set_solver) Hnew) as Hd.
  unfold initial_attrs in Hm, Hd. simplify_map_eq.
  unfold get_config, getattr. rewrite Hm, Hd. cbn [mbind result_bind].
  eexists. split; [reflexivity|].
  split; [apply lookup_dict_update; by simplify_map_eq|].
  split; [apply lookup_dict_update; by simplify_map_eq|].
  intros k Hk. unfold dict_update. apply lookup_union_r.
  repeat (rewrite lookup_insert_ne by set_solver). apply lookup_empty.
Qed.
End PositionConfig.

Section ValuesOnHost.
#[local] Existing Instance Host.layer.
#[local] Existing Instance Host.backend.

Lemma Host_relu_elementwise :
  FeedForward.elementwise (FeedForward.activation (Host.built 0)) (Z.max 0).
Proof. intros x. reflexivity. Qed.

Lemma position_config_merge_witness :
  ∃ config,
    SineCosinePositionEmbedding.get_config
      (Host.position_layer (Some "concat") (Some 6%Z)) = Ok config
    ∧ config !! "output_dim" = Some (VInt 6)
    ∧ config !! "name"
      = Layer_get_config (Host.position_layer (Some "concat") (Some 6%Z))
          !! "name".
Proof.
  destruct (position_config_merge (Some "concat") (Some 6%Z) ∅
              (Host.position_layer (Some "concat") (Some 6%Z))
              (Host_respects ["mode"; "output_dim"]
                 ltac:(set_solver) ltac:(set_solver))
              Host_new_concat6) as (config & Hg & _ & Hd & Hk).
  exists config. split; [exact Hg|]. split; [exact Hd|].
  apply Hk. set_solver.
Defined.

Lemma call_closed_form_witness :
  ∃ out,
    FeedForward.call (Host.built 0)
      (Tensor [1; 4]%nat [1; -2; 3; 4]%Z) None None false = Ok out
    ∧ at_ 0%Z (data out) 0 = 18%Z.
Proof.
  destruct (call_closed_form (Host.feed_forward 0) (Host.built 0)
              [None] 4%Z "layer" (Z.max 0)
              (Tensor [1; 4]%nat [1; -2; 3; 4]%Z) [1%nat] None None false
              eq_refl ltac:(simpl; lia) ltac:(lia)
              Host_build_feed_forward_0 Host_relu_elementwise
              eq_refl ltac:(discriminate) eq_refl)
    as (out & w1 & w2 & Hout & H1 & H2 & Hval).
  exists out. split; [exact Hout|].
  injection H1 as <-. injection H2 as <-.
  pose proof (Hval 0%nat 0%nat ltac:(simpl; lia) ltac:(simpl; lia)) as H0.
  etransitivity; [exact H0|]. vm_compute. reflexivity.
Defined.

Lemma call_position_wise_witness :
  ∃ out out',
    FeedForward.call (Host.built 0)
      (Tensor [2; 4]%nat [1; 2; 3; 4; 5; 6; 7; 8]%Z) None None false = Ok out
    ∧ FeedForward.call (Host.built 0)
        (Tensor [2; 4]%nat [1; 2; 3; 4; 0; 0; 0; 0]%Z) None None false
      = Ok out'
    ∧ at_ 0%Z (data out) 0 = at_ 0%Z (data out') 0.
Proof.
  destruct (call_position_wise (Host.feed_forward 0) (Host.built 0)
              [None] 4%Z "layer" (Z.max 0)
              (Tensor [2; 4]%nat [1; 2; 3; 4; 5; 6; 7; 8]%Z)
              (Tensor [2; 4]%nat [1; 2; 3; 4; 0; 0; 0; 0]%Z)
              [2%nat] 0%nat None None false
              eq_refl ltac:(simpl; lia) ltac:(lia)
              Host_build_feed_forward_0 Host_relu_elementwise
              eq_refl ltac:(discriminate) eq_refl eq_refl
              ltac:(simpl; lia))
    as (out & out' & Ho & Ho' & Hrow).
  - intros t Ht. change (Z.to_nat 4) with 4%nat in *.
    destruct t as [|[|[|[|t]]]]; [reflexivity..|lia].
  - exists out, out'. split; [exact Ho|]. split; [exact Ho'|].
    apply (Hrow 0%nat). simpl. lia.
Defined.
End ValuesOnHost.
